(** * RideShare: booking seat-reservation protocol and location services

    A shallow embedding of the booking module (createBooking,
    handleBookingRequest, updateBookingStatus) and of
    [src/lib/location.ts] (updateDriverLocation, startLocationTracking,
    geocodeLocation).

    The hosted data store, the geocoding endpoint and the browser's
    geolocation API are outside the repository: they appear here as an
    explicit environment (a store with a schedule of per-request events,
    a fetch oracle, a script of browser answers), so that every statement
    quantifies over what those services may answer. *)

From Stdlib Require Import Ascii.
From stdpp Require Import gmap strings list pretty.

Open Scope Z_scope.

(** ** Asynchronous calls that may throw

    An [async] function body is a computation over a world [W] that
    either returns a value or throws.  [await] of a promise that rejects
    is a throw at the await point; [try_catch] is the [try { } catch { }]
    block. *)
Module Async.

(** A thrown value, or the [error] member of a response.  The code
    distinguishes the two with [instanceof Error]. *)
Inductive JsErr : Type :=
| ErrorObj (message : string)   (* new Error(message) or a subclass *)
| PlainObj (message : string).  (* any other non-null thrown object *)

Definition instanceof_Error (e : JsErr) : bool :=
  match e with ErrorObj _ => true | PlainObj _ => false end.

Definition message (e : JsErr) : string :=
  match e with ErrorObj m => m | PlainObj m => m end.

Inductive Outcome (A : Type) : Type :=
| Ret (a : A)
| Throw (e : JsErr).
Arguments Ret {A} a.
Arguments Throw {A} e.

Definition M (W A : Type) : Type := W -> Outcome A * W.

Definition ret {W A} (a : A) : M W A := fun w => (Ret a, w).

Definition throw {W A} (e : JsErr) : M W A := fun w => (Throw e, w).

Definition bind {W A B} (c : M W A) (k : A -> M W B) : M W B :=
  fun w =>
    match c w with
    | (Ret a, w') => k a w'
    | (Throw e, w') => (Throw e, w')
    end.

Definition try_catch {W A} (body : M W A) (handler : JsErr -> M W A) : M W A :=
  fun w =>
    match body w with
    | (Ret a, w') => (Ret a, w')
    | (Throw e, w') => handler e w'
    end.

(** [{ data, error }] as the client library hands it back. *)
Record Response (A : Type) : Type := mkResponse {
  data : option A;
  error : option JsErr
}.
Arguments mkResponse {A} data error.
Arguments data {A} r.
Arguments error {A} r.

Definition ok {A} (a : A) : Response A := mkResponse (Some a) None.
Definition ok_empty {A} : Response A := mkResponse None None.
Definition failed {A} (e : JsErr) : Response A := mkResponse None (Some e).

(** The two ways an awaited request goes wrong. *)
Inductive Fault : Type :=
| Rejects (e : JsErr)          (* the awaited promise rejects *)
| RespondsError (e : JsErr).   (* the response carries a non-null error *)

End Async.

Import Async.

Declare Scope async_scope.
Delimit Scope async_scope with async.
Notation "'let*' x ':=' c 'in' k" := (bind c (fun x => k))
  (at level 10, x pattern, c at level 100, k at level 200) : async_scope.
Notation "c ';;' k" := (bind c (fun _ => k))
  (at level 100, k at level 200, right associativity) : async_scope.
Open Scope async_scope.

(** ** The booking service *)
Module Bookings.

(** type BookingStatus = 'pending' | 'confirmed' | 'cancelled' *)
Inductive BookingStatus : Type := pending | confirmed | cancelled.

#[global] Instance BookingStatus_eq_dec : EqDecision BookingStatus.
Proof. solve_decision. Defined.

(** A row of table [rides], keyed by its [id] in the store. *)
Record Ride : Type := mkRide {
  driver_id : string;
  available_seats : Z;
  ride_status : string
}.

(** A row of table [bookings], keyed by its [id] in the store:
    the columns of [BookingInsert]. *)
Record Booking : Type := mkBooking {
  ride_id : string;
  passenger_id : string;
  seats_booked : Z;
  status : BookingStatus
}.

#[global] Instance Ride_eq_dec : EqDecision Ride.
Proof. solve_decision. Defined.

#[global] Instance Booking_eq_dec : EqDecision Booking.
Proof. solve_decision. Defined.

Record Store : Type := mkStore {
  rides : gmap string Ride;
  bookings : gmap string Booking
}.

(** What [.select(`*, rides ( ... )`).single()] hands back for a booking
    row: the row with its id and the embedded ride, [null] when no ride
    row is visible under the booking's [ride_id]. *)
Record BookingWithRide : Type := mkBookingWithRide {
  id : string;
  row : Booking;
  joined_rides : option (string * Ride)
}.

Definition with_ride (s : Store) (bid : string) (b : Booking) : BookingWithRide :=
  mkBookingWithRide bid b (pair (ride_id b) <$> rides s !! ride_id b).

(** Server-side pieces that are not part of this repository: the SQL
    procedure behind [rpc('update_ride_seats')], the id generator of
    [bookings], and the error objects the client library builds. *)
Record Backend : Type := mkBackend {
  update_ride_seats : string -> Z -> Store -> option JsErr * Store;
  new_booking_id : Store -> string;
  no_rows : JsErr;        (* .single() over zero rows *)
  duplicate_key : JsErr
}.

(** What happens around one request: writes committed by other
    clients before it is served, and whether it fails.  A failed
    request leaves the store as it found it. *)
Record Tick : Type := mkTick {
  before : Store -> Store;
  fault : option Fault
}.

Definition quiet : Tick := mkTick (fun s => s) None.

Inductive Event : Type :=
| SelectRide (ride : string)
| InsertBooking (b : Booking)
| UpdateRideSeatsWhere (ride : string) (new_seats expected_seats : Z)
| DeleteBooking (booking : string)
| UpdateBookingStatus (booking : string) (st : BookingStatus)
| RpcUpdateRideSeats (p_ride_id : string) (p_seats_booked : Z)
| ConsoleError (label : string).

#[global] Instance Event_eq_dec : EqDecision Event.
Proof. solve_decision. Defined.

Record World : Type := mkWorld {
  store : Store;
  backend : Backend;
  schedule : list Tick;
  log : list Event
}.

Definition next_tick (w : World) : Tick := hd quiet (schedule w).

(** The store as the next request will find it. *)
Definition store_seen (w : World) : Store := before (next_tick w) (store w).

Definition served (w : World) (ev : Event) (s : Store) : World :=
  mkWorld s (backend w) (tl (schedule w)) (log w ++ [ev]).

(** One awaited request to the data store. *)
Definition request {A} (ev : Event)
    (exec : Backend -> Store -> Response A * Store) : M World (Response A) :=
  fun w =>
    match fault (next_tick w) with
    | Some (Rejects e) => (Throw e, served w ev (store_seen w))
    | Some (RespondsError e) => (Ret (failed e), served w ev (store_seen w))
    | None =>
        let '(r, s') := exec (backend w) (store_seen w) in
        (Ret r, served w ev s')
    end.

Definition console_error (label : string) : M World unit :=
  fun w => (Ret tt, mkWorld (store w) (backend w) (schedule w) (log w ++ [ConsoleError label])).

(** from('rides').select('available_seats, status').eq('id', id).single() *)
Definition select_ride (rid : string) : M World (Response Ride) :=
  request (SelectRide rid) (fun be s =>
    match rides s !! rid with
    | Some r => (ok r, s)
    | None => (failed (no_rows be), s)
    end).

(** from('bookings').insert([b]).select(...).single() *)
Definition insert_booking (b : Booking) : M World (Response BookingWithRide) :=
  request (InsertBooking b) (fun be s =>
    let bid := new_booking_id be s in
    match bookings s !! bid with
    | Some _ => (failed (duplicate_key be), s)
    | None =>
        let s' := mkStore (rides s) (<[bid := b]> (bookings s)) in
        (ok (with_ride s' bid b), s')
    end).

(** Rows of [rides] selected by .eq('id', rid).eq('available_seats', expected). *)
Definition matches_update (s : Store) (rid : string) (expected : Z) : bool :=
  match rides s !! rid with
  | Some r => bool_decide (available_seats r = expected)
  | None => false
  end.

Definition set_seats (r : Ride) (n : Z) : Ride :=
  mkRide (driver_id r) n (ride_status r).

(** from('rides').update({available_seats}).eq('id', rid).eq('available_seats', expected)
    Unlike the other requests of this module, the call has neither
    .select() nor .single(), and it is .single() that turns an empty
    selection into an error: an update whose filter selects no row is
    answered like one that selects a row, with a null error. *)
Definition update_seats_where (rid : string) (new_seats expected : Z)
    : M World (Response unit) :=
  request (UpdateRideSeatsWhere rid new_seats expected) (fun _ s =>
    if matches_update s rid expected
    then (ok_empty, mkStore (alter (fun r => set_seats r new_seats) rid (rides s)) (bookings s))
    else (ok_empty, s)).

(** from('bookings').delete().eq('id', bid) *)
Definition delete_booking (bid : string) : M World (Response unit) :=
  request (DeleteBooking bid) (fun _ s =>
    (ok_empty, mkStore (rides s) (delete bid (bookings s)))).

Definition set_status (b : Booking) (st : BookingStatus) : Booking :=
  mkBooking (ride_id b) (passenger_id b) (seats_booked b) st.

(** from('bookings').update({status}).eq('id', bid).select(...).single() *)
Definition update_status (bid : string) (st : BookingStatus)
    : M World (Response BookingWithRide) :=
  request (UpdateBookingStatus bid st) (fun be s =>
    match bookings s !! bid with
    | Some b =>
        let b' := set_status b st in
        let s' := mkStore (rides s) (<[bid := b']> (bookings s)) in
        (ok (with_ride s' bid b'), s')
    | None => (failed (no_rows be), s)
    end).

(** rpc('update_ride_seats', { p_ride_id, p_seats_booked }) *)
Definition rpc_update_ride_seats (p_ride_id : string) (p_seats_booked : Z)
    : M World (Response unit) :=
  request (RpcUpdateRideSeats p_ride_id p_seats_booked) (fun be s =>
    let '(err, s') := update_ride_seats be p_ride_id p_seats_booked s in
    (mkResponse None err, s')).

Record CreateBookingParams : Type := mkParams {
  params_ride_id : string;
  params_passenger_id : string;
  params_seats_booked : Z
}.

(** The value createBooking resolves to: { booking, error }. *)
Record CreateBookingResult : Type := mkCreateBookingResult {
  booking : option BookingWithRide;
  booking_error : option JsErr
}.

(** A string is truthy unless it is empty. *)
Definition truthy_string (s : string) : bool := negb (String.eqb s "").

(** The [try] block of createBooking. *)
Definition createBooking_try (params : CreateBookingParams) : M World CreateBookingResult :=
    (let* rideResponse := select_ride (params_ride_id params) in
     if bool_decide (is_Some (error rideResponse))
     then throw (ErrorObj "Failed to verify ride availability")
     else
     match data rideResponse with
     | None => throw (ErrorObj "Ride not found")
     | Some ride =>
       if negb (String.eqb (ride_status ride) "active")
       then throw (ErrorObj "This ride is no longer available for booking")
       else
       if available_seats ride <? params_seats_booked params
       then throw (ErrorObj ("Only " +:+ pretty (available_seats ride) +:+ " seats available"))
       else
       let newBooking :=
         mkBooking (params_ride_id params) (params_passenger_id params)
                   (params_seats_booked params) pending in
       let* inserted := insert_booking newBooking in
       if bool_decide (is_Some (error inserted))
       then throw (ErrorObj "Failed to create booking")
       else
       match data inserted with
       | None => throw (ErrorObj "Failed to create booking")
       | Some booking =>
         let rideUpdate := available_seats ride - params_seats_booked params in
         let* updated :=
           update_seats_where (params_ride_id params) rideUpdate (available_seats ride) in
         match error updated with
         | Some updateError =>
             (if truthy_string (id booking)
              then delete_booking (id booking) ;; ret tt
              else ret tt) ;;
             throw (ErrorObj "Failed to update seat availability. Please try again.")
         | None => ret (mkCreateBookingResult (Some booking) None)
         end
       end
     end).

(** The [catch] block of createBooking. *)
Definition createBooking_catch (error : JsErr) : M World CreateBookingResult :=
  console_error "Booking error:" ;;
  ret (mkCreateBookingResult None
         (Some (if instanceof_Error error then error
                else ErrorObj "An unexpected error occurred"))).

Definition createBooking (params : CreateBookingParams) : M World CreateBookingResult :=
  try_catch (createBooking_try params) createBooking_catch.

(** A concurrent write or server procedure that leaves one booking row alone. *)
Definition keeps_booking (bid : string) (f : Store -> Store) : Prop :=
  forall s, bookings (f s) !! bid = bookings s !! bid.

(** The status column of a booking in a world's store. *)
Definition status_of (w : World) (bid : string) : option BookingStatus :=
  status <$> bookings (store w) !! bid.

Definition rpc_calls (evs : list Event) : list (string * Z) :=
  omap (fun ev => match ev with RpcUpdateRideSeats r n => Some (r, n) | _ => None end) evs.

Definition inserts (evs : list Event) : list Booking :=
  omap (fun ev => match ev with InsertBooking b => Some b | _ => None end) evs.

Definition deletions (evs : list Event) : list string :=
  omap (fun ev => match ev with DeleteBooking b => Some b | _ => None end) evs.

(** status: 'approved' | 'rejected' *)
Inductive Decision : Type := approved | rejected.

Record HandleResult : Type := mkHandleResult {
  success : bool;
  handle_error : option string
}.

Definition handleBookingRequest (bookingId : string) (decision : Decision)
    : M World HandleResult :=
  try_catch
    (let bookingStatus :=
       match decision with approved => confirmed | rejected => cancelled end in
     let* updated := update_status bookingId bookingStatus in
     match error updated with
     | Some updateError => throw updateError
     | None =>
       match data updated with
       | None => throw (ErrorObj "Booking not found")
       | Some booking =>
         (match decision, joined_rides booking with
          | approved, Some (rid, _) =>
              let* seats := rpc_update_ride_seats rid (seats_booked (row booking)) in
              match error seats with
              | Some seatsError => throw seatsError
              | None => ret tt
              end
          | _, _ => ret tt
          end) ;;
         ret (mkHandleResult true None)
       end
     end)
    (fun error =>
       console_error "Error handling booking request:" ;;
       ret (mkHandleResult false
              (Some (if instanceof_Error error then message error
                     else "Failed to handle booking request")))).

(** The value updateBookingStatus resolves to: { booking: data, error }. *)
Record UpdateStatusResult : Type := mkUpdateStatusResult {
  updated_booking : option BookingWithRide;
  update_error : option JsErr
}.

(** No try/catch here: a rejected request propagates to the caller.
    The plain .select() embeds no ride. *)
Definition updateBookingStatus (bookingId : string) (st : BookingStatus)
    : M World UpdateStatusResult :=
  let* resp := update_status bookingId st in
  ret (mkUpdateStatusResult
         ((fun b => mkBookingWithRide (id b) (row b) None) <$> data resp)
         (error resp)).

End Bookings.

(** ** Location services ([src/lib/location.ts]) *)
Module Location.

(** JavaScript numbers and the built-ins the module calls on them and
    on strings.  Floating point is left abstract. *)
Class JsRuntime : Type := mkJsRuntime {
  number : Type;
  falsy : number -> bool;                  (* 0, -0 and NaN *)
  parseFloat : string -> number;
  toISOString : number -> option string;   (* new Date(t).toISOString(); None: RangeError *)
  encodeURIComponent : string -> string;
  number_toString : number -> string       (* String(n) *)
}.

Section WithRuntime.
Context `{JsRuntime}.

(** type Location *)
Record Location : Type := mkLocation {
  latitude : number;
  longitude : number;
  heading : option number;
  speed : option number;
  timestamp : number
}.

(** A row of [driver_locations], one per driver, keyed by [driver_id]. *)
Record DriverLocation : Type := mkDriverLocation {
  row_latitude : number;
  row_longitude : number;
  row_heading : option number;
  row_speed : option number;
  last_updated : string
}.

Record GeolocationCoordinates : Type := mkCoords {
  coords_latitude : number;
  coords_longitude : number;
  coords_heading : option number;   (* number | null *)
  coords_speed : option number
}.

Record GeolocationPosition : Type := mkPosition {
  coords : GeolocationCoordinates;
  position_timestamp : number
}.

(** GeolocationPositionError, by its [code]. *)
Record GeolocationPositionError : Type := mkPositionError { code : Z }.
Definition PERMISSION_DENIED : Z := 1.
Definition POSITION_UNAVAILABLE : Z := 2.
Definition TIMEOUT : Z := 3.

(** PositionOptions; an absent member (and the NaN that doubling an
    absent timeout gives) is [None]. *)
Record PositionOptions : Type := mkOptions {
  enableHighAccuracy : option bool;
  maximumAge : option Z;
  timeout : option Z
}.

Definition default_options : PositionOptions :=
  mkOptions (Some true) (Some 30000) (Some 30000).

(** A search hit of the geocoding service. *)
Record Place : Type := mkPlace {
  lat : string;
  lon : string;
  display_name : string
}.

(** What response.json() resolves to: any JSON value.  An object is
    the list of its members as written in the body. *)
#[local] Set Warnings "-register-all".
Inductive Json : Type :=
| JNull
| JBool (b : bool)
| JNumber (n : number)
| JString (s : string)
| JArray (items : list Json)
| JObject (members : list (string * Json)).

Inductive Fetched : Type :=
| NetworkFailure (e : JsErr)                                (* fetch rejects *)
| HttpResponse (ok : bool) (statusText : string) (body : JsErr + Json).
                                       (* inl: response.json() rejects *)

Record Coords : Type := mkResult {
  lat_of : number;
  lng : number;
  name : string
}.

Inductive Event : Type :=
| ConsoleLog (label : string)
| ConsoleWarn (label : string)
| ConsoleError (label : string)
| Upsert (driver : string) (r : DriverLocation)
| Fetch (url : string)
| GetCurrentPosition (options : PositionOptions)
| SetTimeout (ms : Z)
| WatchPosition (options : PositionOptions)
| ClearWatch (watchId : Z)
| OnLocationUpdate (location : Location).

(** The services the module talks to: the [driver_locations] table
    with the faults of successive requests, and the geocoding endpoint
    as a function of the requested URL. *)
Record World : Type := mkWorld {
  driver_locations : gmap string DriverLocation;
  faults : list (option Fault);
  endpoint : string -> Fetched;
  log : list Event
}.

Definition emit (ev : Event) : M World unit :=
  fun w => (Ret tt, mkWorld (driver_locations w) (faults w) (endpoint w) (log w ++ [ev])).

(** The row an upsert leaves.  An undefined member of the object is
    not in the request body, and the upsert writes the columns sent: a
    column that was not sent keeps the value of the existing row, and
    is null in a new row. *)
Definition merge_row (old : option DriverLocation) (sent : DriverLocation) : DriverLocation :=
  mkDriverLocation (row_latitude sent) (row_longitude sent)
    (match row_heading sent with Some h => Some h | None => old ≫= row_heading end)
    (match row_speed sent with Some v => Some v | None => old ≫= row_speed end)
    (last_updated sent).

(** from('driver_locations').upsert(row) *)
Definition upsert (driver : string) (r : DriverLocation) : M World (Response unit) :=
  fun w =>
    let w' locs := mkWorld locs (tl (faults w)) (endpoint w) (log w ++ [Upsert driver r]) in
    match hd None (faults w) with
    | Some (Rejects e) => (Throw e, w' (driver_locations w))
    | Some (RespondsError e) => (Ret (failed e), w' (driver_locations w))
    | None =>
        (Ret ok_empty,
         w' (<[driver := merge_row (driver_locations w !! driver) r]> (driver_locations w)))
    end.

(** new Date(t).toISOString() *)
Definition date_toISOString (t : number) : M World string :=
  match toISOString t with
  | Some iso => ret iso
  | None => throw (ErrorObj "Invalid time value")
  end.

(** The value updateDriverLocation resolves to: { error }. *)
Record UpdateResult : Type := mkUpdateResult { update_error : option JsErr }.

(** The [try] block of updateDriverLocation.  The row, with its
    timestamp conversion, is built before the request is sent. *)
Definition updateDriverLocation_try (driverId : string) (location : Location)
    : M World UpdateResult :=
  let* iso := date_toISOString (timestamp location) in
  let* resp :=
    upsert driverId
      (mkDriverLocation (latitude location) (longitude location)
         (heading location) (speed location) iso) in
  match error resp with
  | Some error => throw error
  | None => ret (mkUpdateResult None)
  end.

(** The [catch] block of updateDriverLocation. *)
Definition updateDriverLocation_catch (error : JsErr) : M World UpdateResult :=
  emit (ConsoleError "Error updating location:") ;;
  ret (mkUpdateResult (Some error)).

Definition updateDriverLocation (driverId : string) (location : Location)
    : M World UpdateResult :=
  try_catch (updateDriverLocation_try driverId location) updateDriverLocation_catch.

(** [x || undefined] on a [number | null]. *)
Definition or_undefined (x : option number) : option number :=
  match x with
  | Some v => if falsy v then None else Some v
  | None => None
  end.

Definition to_location (position : GeolocationPosition) : Location :=
  mkLocation (coords_latitude (coords position)) (coords_longitude (coords position))
    (or_undefined (coords_heading (coords position)))
    (or_undefined (coords_speed (coords position)))
    (position_timestamp position).

(** One answer of the browser to a position request. *)
Inductive Answer : Type :=
| Fix (position : GeolocationPosition)
| Fails (error : GeolocationPositionError).

(** navigator: whether [geolocation] is there, the answers to the
    successive getCurrentPosition calls (a call past the end of the
    script is never answered), the callbacks of the watch in order and
    the id watchPosition returns. *)
Record Navigator : Type := mkNavigator {
  geolocation : bool;
  one_shot : list Answer;
  watch : list Answer;
  watch_id : Z
}.

Inductive Settled : Type :=
| Resolved (position : GeolocationPosition)
| Rejected (error : GeolocationPositionError)
| Pending.

Definition maxRetries : Z := 3.

Definition double_timeout (o : PositionOptions) : PositionOptions :=
  mkOptions (enableHighAccuracy o) (maximumAge o) ((fun t => t * 2) <$> timeout o).

(** 5000 * Math.pow(2, retryCount - 1); retryCount is at least 1 here. *)
Definition backoff (retryCount : Z) : Z := 5000 * 2 ^ (retryCount - 1).

(** getPosition, with the closure variable [retryCount] passed along. *)
Fixpoint getPosition (answers : list Answer) (retryCount : Z)
    (retryOptions : PositionOptions) : list Event * Settled :=
  match answers with
  | [] => ([GetCurrentPosition retryOptions], Pending)
  | Fix position :: _ => ([GetCurrentPosition retryOptions], Resolved position)
  | Fails error :: rest =>
      let warned :=
        [GetCurrentPosition retryOptions;
         ConsoleWarn ("Geolocation attempt " +:+ pretty (retryCount + 1) +:+ " failed:")] in
      if retryCount <? maxRetries then
        let retryCount := retryCount + 1 in
        let '(evs, settled) := getPosition rest retryCount (double_timeout retryOptions) in
        (warned ++ SetTimeout (backoff retryCount) :: evs, settled)
      else (warned, Rejected error)
  end.

(** .then / .catch on the initial getPosition(options). *)
Definition initial_position (answers : list Answer) (options : PositionOptions)
    : list Event :=
  let '(evs, settled) := getPosition answers 0 options in
  evs ++
  match settled with
  | Resolved position => [OnLocationUpdate (to_location position)]
  | Rejected _ => [ConsoleWarn "Failed to get initial position after retries:"]
  | Pending => []
  end.

(** The two callbacks given to watchPosition. *)
Definition on_watch (a : Answer) : list Event :=
  match a with
  | Fix position => [OnLocationUpdate (to_location position)]
  | Fails error =>
      ConsoleError "Error watching position:" ::
      (if bool_decide (code error = PERMISSION_DENIED)
       then [ConsoleWarn "Location permission denied"]
       else if bool_decide (code error = POSITION_UNAVAILABLE)
       then [ConsoleWarn "Location information unavailable"]
       else if bool_decide (code error = TIMEOUT)
       then [ConsoleWarn "Location request timed out"]
       else [ConsoleError "Unknown error getting location:"])
  end.

(** What a call of startLocationTracking sets in motion: what it
    logs itself, the one-shot chain, the watch (the two run
    independently of each other), and what the returned function does
    when called. *)
Record Tracking : Type := mkTracking {
  on_call : list Event;
  one_shot_chain : list Event;
  watching : list Event;
  cleanup : list Event
}.

Definition startLocationTracking (navigator : Navigator) (options : PositionOptions)
    : Tracking :=
  if negb (geolocation navigator)
  then mkTracking [ConsoleWarn "Geolocation is not supported by this browser."] [] [] []
  else
    mkTracking
      []
      (initial_position (one_shot navigator) options)
      (WatchPosition options :: flat_map on_watch (watch navigator))
      [ClearWatch (watch_id navigator)].


Definition attempts (evs : list Event) : list PositionOptions :=
  omap (fun ev => match ev with GetCurrentPosition o => Some o | _ => None end) evs.


Definition callbacks (evs : list Event) : list Location :=
  omap (fun ev => match ev with OnLocationUpdate l => Some l | _ => None end) evs.

Definition fetched (evs : list Event) : list string :=
  omap (fun ev => match ev with Fetch url => Some url | _ => None end) evs.


(** How many failures a script starts with. *)
Fixpoint leading_failures (answers : list Answer) : nat :=
  match answers with
  | Fails _ :: rest => S (leading_failures rest)
  | _ => O
  end.



Definition nominatimUrl : string := "https://nominatim.openstreetmap.org/search".

Definition scoped_url (locationName : string) : string :=
  nominatimUrl +:+ "?format=json&q=" +:+ encodeURIComponent locationName +:+ ", Gujarat, India".

Definition unscoped_url (locationName : string) : string :=
  nominatimUrl +:+ "?format=json&q=" +:+ encodeURIComponent locationName.

(** s.split(',')[0] *)
Fixpoint first_part (s : string) : string :=
  match s with
  | EmptyString => EmptyString
  | String c rest => if Ascii.eqb c ","%char then EmptyString else String c (first_part rest)
  end.

(** await fetch(url, ...); if (!response.ok) throw ...; await response.json() *)
Definition fetch_json (url : string) : M World Json :=
  fun w =>
    let w' := mkWorld (driver_locations w) (faults w) (endpoint w) (log w ++ [Fetch url]) in
    match endpoint w url with
    | NetworkFailure e => (Throw e, w')
    | HttpResponse false statusText _ =>
        (Throw (ErrorObj ("Geocoding failed: " +:+ statusText)), w')
    | HttpResponse true _ (inl e) => (Throw e, w')
    | HttpResponse true _ (inr body) => (Ret body, w')
    end.

(** JavaScript's reading of a parsed value; [None] is undefined. *)

(** Truthiness.  A parsed number is never NaN. *)
Definition truthy (v : option Json) : bool :=
  match v with
  | None => false
  | Some JNull => false
  | Some (JBool b) => b
  | Some (JNumber n) => negb (falsy n)
  | Some (JString s) => negb (String.eqb s "")
  | Some (JArray _) => true
  | Some (JObject _) => true
  end.

(** object[key]: of members written twice, the last one counts. *)
Fixpoint lookup_member (key : string) (members : list (string * Json)) : option Json :=
  match members with
  | [] => None
  | (k, v) :: rest =>
      match lookup_member key rest with
      | Some later => Some later
      | None => if String.eqb k key then Some v else None
      end
  end.

(** v.key, for the keys read here (lat, lon, display_name), on a truthy v. *)
Definition member (key : string) (v : Json) : option Json :=
  match v with
  | JObject members => lookup_member key members
  | _ => None
  end.

(** v.length === 0, on a truthy v. *)
Definition length_is_zero (v : Json) : bool :=
  match v with
  | JArray [] => true
  | JString s => String.eqb s ""
  | JObject members =>
      match lookup_member "length" members with
      | Some (JNumber n) => falsy n
      | _ => false
      end
  | _ => false
  end.

(** v[0], on a truthy v. *)
Definition first_element (v : Json) : option Json :=
  match v with
  | JArray items => head items
  | JObject members => lookup_member "0" members
  | JString (String c _) => Some (JString (String c EmptyString))
  | _ => None
  end.

(** parts.join(','), [None] when the conversion of a part throws. *)
Fixpoint join_comma (parts : list (option string)) : option string :=
  match parts with
  | [] => Some ""
  | [part] => part
  | part :: rest =>
      match part, join_comma rest with
      | Some first, Some others => Some (first +:+ "," +:+ others)
      | _, _ => None
      end
  end.

(** String(v), as parseFloat applies it to its argument.  [None] is
    the TypeError of an object with a member toString of its own: the
    member hides the inherited method and no parsed value can be
    called. *)
Fixpoint to_text (v : Json) : option string :=
  match v with
  | JNull => Some "null"
  | JBool true => Some "true"
  | JBool false => Some "false"
  | JNumber n => Some (number_toString n)
  | JString s => Some s
  | JArray items =>
      join_comma
        (List.map (fun item => match item with JNull => Some "" | _ => to_text item end) items)
  | JObject members =>
      match lookup_member "toString" members with
      | Some _ => None
      | None => Some "[object Object]"
      end
  end.

Definition text_of (v : option Json) : option string :=
  match v with
  | None => Some "undefined"
  | Some v => to_text v
  end.

(** parseFloat(v) *)
Definition parseFloat_of (v : option Json) : M World number :=
  match text_of v with
  | Some text => ret (parseFloat text)
  | None => throw (ErrorObj "TypeError")
  end.

(** !data || data.length === 0 *)
Definition no_results (data : Json) : bool :=
  negb (truthy (Some data)) || length_is_zero data.

(** data && data[0], when it is truthy. *)
Definition first_result (data : Json) : option Json :=
  if truthy (Some data)
  then match first_element data with
       | Some hit => if truthy (Some hit) then Some hit else None
       | None => None
       end
  else None.

(** The object built from data[0]; display_name.split throws a
    TypeError unless display_name is a string. *)
Definition coords_from (hit : Json) : M World Coords :=
  let* lat := parseFloat_of (member "lat" hit) in
  let* lng := parseFloat_of (member "lon" hit) in
  match member "display_name" hit with
  | Some (JString display_name) => ret (mkResult lat lng (first_part display_name))
  | _ => throw (ErrorObj "TypeError")
  end.

Definition geocodeLocation (locationName : string) : M World (option Coords) :=
  try_catch
    (emit (ConsoleLog "Geocoding location:") ;;
     let* data := fetch_json (scoped_url locationName) in
     let* data :=
       if no_results data
       then emit (ConsoleLog "No results found with Gujarat, trying without location context") ;;
            fetch_json (unscoped_url locationName)
       else ret data in
     match first_result data with
     | Some hit =>
         let* coords := coords_from hit in
         emit (ConsoleLog "Found coordinates:") ;;
         ret (Some coords)
     | None =>
         emit (ConsoleWarn ("No results found for location: " +:+ locationName)) ;;
         ret None
     end)
    (fun error =>
       emit (ConsoleError "Geocoding error:") ;;
       ret None).

(** Readings of an answer of the endpoint used in the statements
    below: the data a query yields ([None] when the call fails), the
    first hit the code takes from it, and the result built from a hit
    ([None] when building it throws). *)
Definition json_of (f : Fetched) : option Json :=
  match f with
  | HttpResponse true _ (inr data) => Some data
  | _ => None
  end.

Definition first_hit (data : Json) : option Json := first_result data.

Definition coords_of (hit : Json) : option Coords :=
  match text_of (member "lat" hit), text_of (member "lon" hit), member "display_name" hit with
  | Some lat, Some lon, Some (JString display_name) =>
      Some (mkResult (parseFloat lat) (parseFloat lon) (first_part display_name))
  | _, _, _ => None
  end.

(** The body member of a hit as the service writes it. *)
Definition place_json (p : Place) : Json :=
  JObject [("lat", JString (lat p)); ("lon", JString (lon p));
           ("display_name", JString (display_name p))].

End WithRuntime.

End Location.

(** ** Concrete stores and environments used to run the definitions *)
Module Samples.
Import Bookings.

(** A backend whose seat procedure decrements the ride's seat count. *)
Definition server : Backend :=
  mkBackend
    (fun rid n s =>
       (None, mkStore (alter (fun r => set_seats r (available_seats r - n)) rid (rides s))
                      (bookings s)))
    (fun _ => "booking-1")
    (PlainObj "PGRST116")
    (PlainObj "23505").

Definition ride1 : Ride := mkRide "driver-1" 2 "active".

Definition closed_ride : Ride := mkRide "driver-1" 2 "completed".

(** One ride with two seats left and one booking already cancelled. *)
Definition store0 : Store :=
  mkStore {[ "ride-1" := ride1 ]}
          {[ "booking-0" := mkBooking "ride-1" "passenger-0" 1 cancelled ]}.

Definition store_pending : Store :=
  mkStore {[ "ride-1" := ride1 ]}
          {[ "booking-0" := mkBooking "ride-1" "passenger-0" 1 pending ]}.

Definition store_closed : Store :=
  mkStore {[ "ride-1" := closed_ride ]} ∅.

Definition world0 : World := mkWorld store0 server [] [].

Definition world_pending : World := mkWorld store_pending server [] [].

Definition world_closed : World := mkWorld store_closed server [] [].

(** Another passenger's booking takes one seat of ride-1. *)
Definition other_passenger (s : Store) : Store :=
  mkStore (alter (fun r => set_seats r (available_seats r - 1)) "ride-1" (rides s))
          (bookings s).

(** The other passenger gets in between the insert and the conditional update. *)
Definition race_world : World :=
  mkWorld store0 server [quiet; quiet; mkTick other_passenger None] [].

(** The first request is rejected by the network. *)
Definition offline_world : World :=
  mkWorld store0 server [mkTick (fun s => s) (Some (Rejects (PlainObj "Failed to fetch")))] [].

Definition two_seats : CreateBookingParams := mkParams "ride-1" "passenger-1" 2.

Definition three_seats : CreateBookingParams := mkParams "ride-1" "passenger-1" 3.

End Samples.

Module LocationSamples.
Import Location.

(** A runtime in which a number is kept as its decimal text. *)
Definition runtime : JsRuntime :=
  mkJsRuntime string
    (fun x => bool_decide (x = "0") || bool_decide (x = "NaN"))
    (fun text => text)
    (fun t => if bool_decide (t = "NaN") then None else Some ("T" +:+ t))
    (fun text => text)
    (fun n => n).

#[local] Existing Instance runtime.





Definition no_geolocation : @Navigator runtime := mkNavigator false [] [] 0.

Definition here : @Location runtime :=
  mkLocation "23.0225" "72.5714" None None "1700000000000".

Definition no_answer : Fetched := HttpResponse true "OK" (inr (JArray [])).

Definition table : @World runtime :=
  mkWorld ∅ [Some (RespondsError (PlainObj "permission denied"))] (fun _ => no_answer) [].

End LocationSamples.

(** ** Control flow shared by the callers *)
Module Control.

(** try { body } finally { fin }: [fin] runs on both exits; the body's
    outcome stands unless [fin] itself throws. *)
Definition finally {W A} (body : M W A) (fin : M W unit) : M W A :=
  fun w =>
    let '(o, w') := body w in
    match fin w' with
    | (Ret _, w'') => (o, w'')
    | (Throw e, w'') => (Throw e, w'')
    end.

(** A computation over a part [V] of the state [W]. *)
Definition lift {W V A} (get : W -> V) (set : W -> V -> W) (c : M V A) : M W A :=
  fun w => let '(o, v') := c (get w) in (o, set w v').

End Control.

(** ** The cancel hook (useCancelBooking) *)
Module CancelHook.
Import Control.

(** The second argument of showNotification. *)
Inductive NotificationType : Type := notify_success | notify_error.

(** The hook's state (loading, error), the notifications shown through
    the notification context, and the data store behind the booking
    service. *)
Record Hook : Type := mkHook {
  loading : bool;
  hook_error : option string;
  notifications : list (string * NotificationType);
  remote : Bookings.World
}.

Definition setLoading (b : bool) : M Hook unit :=
  fun h => (Ret tt, mkHook b (hook_error h) (notifications h) (remote h)).

Definition setError (e : option string) : M Hook unit :=
  fun h => (Ret tt, mkHook (loading h) e (notifications h) (remote h)).

Definition showNotification (text : string) (kind : NotificationType) : M Hook unit :=
  fun h => (Ret tt, mkHook (loading h) (hook_error h) (notifications h ++ [(text, kind)]) (remote h)).

Definition booking_service {A} (c : M Bookings.World A) : M Hook A :=
  lift remote (fun h w => mkHook (loading h) (hook_error h) (notifications h) w) c.

(** What cancelBooking resolves to: the booking member of the update's
    result, or undefined after the catch block. *)
Inductive Cancelled : Type :=
| Returned (booking : option Bookings.BookingWithRide)
| Undefined.

Definition cancelBooking (bookingId : string) : M Hook Cancelled :=
  finally
    (try_catch
       (setLoading true ;;
        setError None ;;
        let* result := booking_service (Bookings.updateBookingStatus bookingId Bookings.cancelled) in
        match Bookings.update_error result with
        | Some cancelError => throw cancelError
        | None =>
            showNotification "Ride cancelled successfully" notify_success ;;
            ret (Returned (Bookings.updated_booking result))
        end)
       (fun err =>
          let errorMessage :=
            if instanceof_Error err then message err else "Failed to cancel booking" in
          setError (Some errorMessage) ;;
          showNotification errorMessage notify_error ;;
          ret Undefined))
    (setLoading false).

End CancelHook.

(** ** The search form (SearchRides) *)
Module SearchForm.
Import Control.

Section WithRuntime.
Context `{Location.JsRuntime}.

Record SearchParams : Type := mkSearchParams {
  from : string;
  to : string;
  date : string
}.

(** The argument of an onSearch call. *)
Record Search : Type := mkSearch {
  search_params : SearchParams;
  search_from : Location.Coords;
  search_to : Location.Coords
}.

(** The component's state, the onSearch calls made so far, and the
    world of the location services (endpoint and console). *)
Record Form : Type := mkForm {
  searchParams : SearchParams;
  fromLocation : option Location.Coords;
  toLocation : option Location.Coords;
  isLoading : bool;
  searches : list Search;
  web : Location.World
}.

Definition setFromLocation (c : Location.Coords) : M Form unit :=
  fun f => (Ret tt, mkForm (searchParams f) (Some c) (toLocation f) (isLoading f)
                      (searches f) (web f)).

Definition setToLocation (c : Location.Coords) : M Form unit :=
  fun f => (Ret tt, mkForm (searchParams f) (fromLocation f) (Some c) (isLoading f)
                      (searches f) (web f)).

Definition setIsLoading (b : bool) : M Form unit :=
  fun f => (Ret tt, mkForm (searchParams f) (fromLocation f) (toLocation f) b
                      (searches f) (web f)).

Definition onSearch (s : Search) : M Form unit :=
  fun f => (Ret tt, mkForm (searchParams f) (fromLocation f) (toLocation f) (isLoading f)
                      (searches f ++ [s]) (web f)).

Definition location_service {A} (c : M Location.World A) : M Form A :=
  lift web (fun f w => mkForm (searchParams f) (fromLocation f) (toLocation f) (isLoading f)
                         (searches f) w) c.

Definition console (ev : Location.Event) : M Form unit :=
  location_service (Location.emit ev).

(** updateLocations; [searchParams] is the value of the render that
    created the closure. *)
Definition updateLocations : M Form unit :=
  fun f =>
    let params := searchParams f in
    if negb (Bookings.truthy_string (from params)) || negb (Bookings.truthy_string (to params))
    then (Ret tt, f)
    else
      (setIsLoading true ;;
       finally
         (try_catch
            (console (Location.ConsoleLog "Updating locations for:") ;;
             let* fromCoords := location_service (Location.geocodeLocation (from params)) in
             match fromCoords with
             | Some found =>
                 console (Location.ConsoleLog "Found from location:") ;;
                 setFromLocation found
             | None => ret tt
             end ;;
             let* toCoords := location_service (Location.geocodeLocation (to params)) in
             match toCoords with
             | Some found =>
                 console (Location.ConsoleLog "Found to location:") ;;
                 setToLocation found
             | None => ret tt
             end)
            (fun error => console (Location.ConsoleError "Error updating locations:")))
         (setIsLoading false)) f.

(** handleSubmit, after e.preventDefault(). *)
Definition handleSubmit : M Form unit :=
  fun f =>
    match fromLocation f, toLocation f with
    | Some fromCoords, Some toCoords =>
        (console (Location.ConsoleLog "Submitting search with params:") ;;
         onSearch (mkSearch (searchParams f) fromCoords toCoords)) f
    | _, _ => console (Location.ConsoleError "Locations not found") f
    end.

(** onChange of the two text inputs. *)
Definition type_from (text : string) : M Form unit :=
  fun f => (Ret tt, mkForm (mkSearchParams text (to (searchParams f)) (date (searchParams f)))
                      (fromLocation f) (toLocation f) (isLoading f) (searches f) (web f)).

Definition type_to (text : string) : M Form unit :=
  fun f => (Ret tt, mkForm (mkSearchParams (from (searchParams f)) text (date (searchParams f)))
                      (fromLocation f) (toLocation f) (isLoading f) (searches f) (web f)).

End WithRuntime.

End SearchForm.

(** ** The storage adapter given to the data-store client *)
Module ClientStorage.

(** One Web Storage area: its items, and which of its accesses throw
    in this browser (storage denied, quota exceeded). *)
Record Area : Type := mkArea {
  items : gmap string string;
  get_throws : bool;
  set_throws : bool;
  remove_throws : bool
}.

Record Browser : Type := mkBrowser {
  localStorage : Area;
  sessionStorage : Area;
  console : list string
}.

Inductive Which : Type := Local | Session.

Definition area (which : Which) (b : Browser) : Area :=
  match which with Local => localStorage b | Session => sessionStorage b end.

Definition with_items (which : Which) (m : gmap string string) (b : Browser) : Browser :=
  let a := area which b in
  let a' := mkArea m (get_throws a) (set_throws a) (remove_throws a) in
  match which with
  | Local => mkBrowser a' (sessionStorage b) (console b)
  | Session => mkBrowser (localStorage b) a' (console b)
  end.

(** storage.getItem(key) *)
Definition storage_getItem (which : Which) (key : string) : M Browser (option string) :=
  fun b =>
    if get_throws (area which b) then (Throw (ErrorObj "SecurityError"), b)
    else (Ret (items (area which b) !! key), b).

(** storage.setItem(key, value) *)
Definition storage_setItem (which : Which) (key value : string) : M Browser unit :=
  fun b =>
    if set_throws (area which b) then (Throw (ErrorObj "QuotaExceededError"), b)
    else (Ret tt, with_items which (<[key := value]> (items (area which b))) b).

(** storage.removeItem(key) *)
Definition storage_removeItem (which : Which) (key : string) : M Browser unit :=
  fun b =>
    if remove_throws (area which b) then (Throw (ErrorObj "SecurityError"), b)
    else (Ret tt, with_items which (delete key (items (area which b))) b).

Definition console_error (label : string) : M Browser unit :=
  fun b => (Ret tt, mkBrowser (localStorage b) (sessionStorage b) (console b ++ [label])).

(** The adapter that tries localStorage and falls back to sessionStorage. *)
Definition getItem (key : string) : M Browser (option string) :=
  try_catch
    (let* item := storage_getItem Local key in ret item)
    (fun error =>
       console_error "Error accessing localStorage:" ;;
       try_catch
         (storage_getItem Session key)
         (fun error => console_error "Error accessing sessionStorage:" ;; ret None)).

Definition setItem (key value : string) : M Browser unit :=
  try_catch
    (storage_setItem Local key value)
    (fun error =>
       console_error "Error setting localStorage:" ;;
       try_catch
         (storage_setItem Session key value)
         (fun error => console_error "Error setting sessionStorage:")).

Definition removeItem (key : string) : M Browser unit :=
  try_catch
    (storage_removeItem Local key)
    (fun error =>
       console_error "Error removing from localStorage:" ;;
       try_catch
         (storage_removeItem Session key)
         (fun error => console_error "Error removing from sessionStorage:")).

(** The adapter that uses sessionStorage only. *)
Definition session_getItem (key : string) : M Browser (option string) :=
  try_catch
    (storage_getItem Session key)
    (fun error => console_error "Error accessing sessionStorage:" ;; ret None).

Definition session_setItem (key value : string) : M Browser unit :=
  try_catch
    (storage_setItem Session key value)
    (fun error => console_error "Error setting sessionStorage:").

Definition session_removeItem (key : string) : M Browser unit :=
  try_catch
    (storage_removeItem Session key)
    (fun error => console_error "Error removing from sessionStorage:").

End ClientStorage.

(** ** Readings used in the statements about the location services *)
Module LocationReadings.
Import Location.

Section WithRuntime.
Context `{JsRuntime}.


(** A hit in the service's format: an object whose lat, lon and
    display_name members are the strings of [p]. *)
Definition is_place (hit : Json) (p : Place) : Prop :=
  exists members,
    hit = JObject members /\
    lookup_member "lat" members = Some (JString (lat p)) /\
    lookup_member "lon" members = Some (JString (lon p)) /\
    lookup_member "display_name" members = Some (JString (display_name p)).

(** What a lookup of [locationName] gives against an endpoint: the
    first hit of the scoped answer, else of the unscoped one. *)
Definition geocode_answer (endpoint : string -> Fetched) (locationName : string)
    : option Coords :=
  match json_of (endpoint (scoped_url locationName)) with
  | None => None
  | Some data =>
      if no_results data
      then (json_of (endpoint (unscoped_url locationName)) ≫= first_hit) ≫= coords_of
      else first_hit data ≫= coords_of
  end.

(** The location a lookup leaves in the form: the one found, or the one
    that was there. *)
Definition kept (found old : option Coords) : option Coords :=
  match found with Some c => Some c | None => old end.

(** The URLs a lookup of [locationName] fetches, in order. *)
Definition geocode_fetches (endpoint : string -> Fetched) (locationName : string)
    : list string :=
  scoped_url locationName ::
  (if match json_of (endpoint (scoped_url locationName)) with
      | Some data => no_results data
      | None => false
      end
   then [unscoped_url locationName] else []).

End WithRuntime.

Definition has_comma (s : string) : Prop :=
  In ","%char (String.list_ascii_of_string s).

End LocationReadings.

Module MoreSamples.
Import Location.

#[local] Existing Instance LocationSamples.runtime.


Definition stamped_nan : Location :=
  mkLocation "23.0225" "72.5714" None None "NaN".

Definition empty_table : World :=
  mkWorld ∅ [] (fun _ => LocationSamples.no_answer) [].

Definition ahmedabad_hit : Place :=
  mkPlace "23.0225" "72.5714" "Ahmedabad, Ahmedabad District, Gujarat, India".

Definition ahmedabad_coords : Coords := mkResult "23.0225" "72.5714" "Ahmedabad".

Definition surat_coords : Coords := mkResult "21.1702" "72.8311" "Surat".

(** An endpoint that knows Ahmedabad, scoped, and nothing else. *)
Definition gazetteer (url : string) : Fetched :=
  if String.eqb url (scoped_url "Ahmedabad")
  then HttpResponse true "OK" (inr (JArray [place_json ahmedabad_hit]))
  else LocationSamples.no_answer.

Definition web0 : World := mkWorld ∅ [] gazetteer [].

(** The form after a search from Ahmedabad to Surat was set up. *)
Definition form0 : SearchForm.Form :=
  SearchForm.mkForm (SearchForm.mkSearchParams "Ahmedabad" "Surat" "2025-01-01")
    (Some ahmedabad_coords) (Some surat_coords) false [] web0.

(** A browser whose localStorage is full: reads work, writes throw. *)
Definition full_browser : ClientStorage.Browser :=
  ClientStorage.mkBrowser
    (ClientStorage.mkArea {[ "supabase.auth.token" := "old" ]} false true false)
    (ClientStorage.mkArea ∅ false false false)
    [].

Definition working_browser : ClientStorage.Browser :=
  ClientStorage.mkBrowser
    (ClientStorage.mkArea ∅ false false false)
    (ClientStorage.mkArea {[ "supabase.auth.token" := "stale" ]} false false false)
    [].

Definition private_browser : ClientStorage.Browser :=
  ClientStorage.mkBrowser
    (ClientStorage.mkArea ∅ true true true)
    (ClientStorage.mkArea ∅ false false false)
    [].

End MoreSamples.

(** * Properties of the booking service *)
Module BookingFacts.
Import Bookings.

(** ** Equations of the requests *)

Lemma select_ride_found (w : World) (rid : string) (r : Ride) :
  fault (next_tick w) = None ->
  rides (store_seen w) !! rid = Some r ->
  select_ride rid w = (Ret (ok r), served w (SelectRide rid) (store_seen w)).
Proof.
  intros Hf Hr. unfold select_ride, request. rewrite Hf, Hr. reflexivity.
Qed.

Lemma insert_booking_fresh (w : World) (b : Booking) :
  fault (next_tick w) = None ->
  bookings (store_seen w) !! new_booking_id (backend w) (store_seen w) = None ->
  let bid := new_booking_id (backend w) (store_seen w) in
  let s' := mkStore (rides (store_seen w)) (<[bid := b]> (bookings (store_seen w))) in
  insert_booking b w = (Ret (ok (with_ride s' bid b)), served w (InsertBooking b) s').
Proof.
  intros Hf Hb. unfold insert_booking, request. rewrite Hf, Hb. reflexivity.
Qed.

Lemma update_seats_where_quiet (w : World) (rid : string) (n expected : Z) :
  fault (next_tick w) = None ->
  update_seats_where rid n expected w =
    (Ret ok_empty,
     served w (UpdateRideSeatsWhere rid n expected)
       (if matches_update (store_seen w) rid expected
        then mkStore (alter (fun r => set_seats r n) rid (rides (store_seen w)))
                     (bookings (store_seen w))
        else store_seen w)).
Proof.
  intros Hf. unfold update_seats_where, request. rewrite Hf.
  destruct (matches_update _ _ _); reflexivity.
Qed.

Lemma update_status_found (w : World) (bid : string) (st : BookingStatus) (b : Booking) :
  fault (next_tick w) = None ->
  bookings (store_seen w) !! bid = Some b ->
  let s' := mkStore (rides (store_seen w))
                    (<[bid := set_status b st]> (bookings (store_seen w))) in
  update_status bid st w =
    (Ret (ok (with_ride s' bid (set_status b st))), served w (UpdateBookingStatus bid st) s').
Proof.
  intros Hf Hb. unfold update_status, request. rewrite Hf, Hb. reflexivity.
Qed.

(** Every request either throws or answers; it never changes the log
    other than by appending its own event. *)
Lemma request_log {A} (ev : Event) (exec : Backend -> Store -> Response A * Store)
    (w : World) :
  log (snd (request ev exec w)) = log w ++ [ev].
Proof.
  unfold request. destruct (fault (next_tick w)) as [[e|e]|]; try reflexivity.
  destruct (exec _ _); reflexivity.
Qed.

(** ** Rejections before the insert *)

(** A ride that was read but fails one of the two checks: the try
    block throws right after the read. *)
Lemma createBooking_rejected_after_read (w : World) (params : CreateBookingParams)
    (ride : Ride) :
  fault (next_tick w) = None ->
  rides (store_seen w) !! params_ride_id params = Some ride ->
  ride_status ride <> "active" \/ available_seats ride < params_seats_booked params ->
  exists e,
    createBooking params w =
      (Ret (mkCreateBookingResult None (Some (ErrorObj e))),
       mkWorld (store_seen w) (backend w) (tl (schedule w))
         (log w ++ [SelectRide (params_ride_id params); ConsoleError "Booking error:"])).
Proof.
  intros Hf Hr Hbad.
  unfold createBooking, try_catch, createBooking_try, bind.
  rewrite (select_ride_found _ _ _ Hf Hr). cbn [ok error data].
  rewrite bool_decide_eq_false_2 by (intros [? ?]; discriminate).
  destruct (String.eqb (ride_status ride) "active") eqn:Hact; cbn [negb].
  - apply String.eqb_eq in Hact.
    destruct Hbad as [Hna | Hlt]; [congruence |].
    apply Z.ltb_lt in Hlt. rewrite Hlt.
    eexists. unfold throw, createBooking_catch, bind, console_error, ret, served.
    cbn. rewrite <- app_assoc. reflexivity.
  - eexists. unfold throw, createBooking_catch, bind, console_error, ret, served.
    cbn. rewrite <- app_assoc. reflexivity.
Qed.

(** C4: when the seat count read at the start is strictly below the
    requested count, createBooking resolves to an error result
    ([booking] null, [error] non-null), issues no insert, and leaves
    the bookings table as the read found it. *)
Theorem createBooking_insufficient_seats (w : World) (params : CreateBookingParams)
    (ride : Ride) :
  fault (next_tick w) = None ->
  rides (store_seen w) !! params_ride_id params = Some ride ->
  available_seats ride < params_seats_booked params ->
  exists (e : JsErr) (w' : World),
    createBooking params w = (Ret (mkCreateBookingResult None (Some e)), w') /\
    inserts (log w') = inserts (log w) /\
    bookings (store w') = bookings (store_seen w).
Proof.
  intros Hf Hr Hlt.
  destruct (createBooking_rejected_after_read w params ride Hf Hr (or_intror Hlt)) as [e He].
  eexists _, _. split; [exact He |]. cbn. split; [| reflexivity].
  unfold inserts. rewrite omap_app. cbn. apply app_nil_r.
Qed.

Lemma createBooking_insufficient_seats_witness :
  exists (e : JsErr) (w' : World),
    createBooking Samples.three_seats Samples.world0 =
      (Ret (mkCreateBookingResult None (Some e)), w') /\
    inserts (log w') = inserts (log Samples.world0) /\
    bookings (store w') = bookings (store_seen Samples.world0).
Proof.
  apply (createBooking_insufficient_seats Samples.world0 Samples.three_seats Samples.ride1).
  - reflexivity.
  - vm_compute. reflexivity.
  - cbn. lia.
Defined.

(** C5: when the status read at the start is not 'active',
    createBooking resolves to an error result, issues no insert, and
    leaves the bookings table as the read found it. *)
Theorem createBooking_inactive_ride (w : World) (params : CreateBookingParams)
    (ride : Ride) :
  fault (next_tick w) = None ->
  rides (store_seen w) !! params_ride_id params = Some ride ->
  ride_status ride <> "active" ->
  exists (e : JsErr) (w' : World),
    createBooking params w = (Ret (mkCreateBookingResult None (Some e)), w') /\
    inserts (log w') = inserts (log w) /\
    bookings (store w') = bookings (store_seen w).
Proof.
  intros Hf Hr Hna.
  destruct (createBooking_rejected_after_read w params ride Hf Hr (or_introl Hna)) as [e He].
  eexists _, _. split; [exact He |]. cbn. split; [| reflexivity].
  unfold inserts. rewrite omap_app. cbn. apply app_nil_r.
Qed.

Lemma createBooking_inactive_ride_witness :
  exists (e : JsErr) (w' : World),
    createBooking Samples.two_seats Samples.world_closed =
      (Ret (mkCreateBookingResult None (Some e)), w') /\
    inserts (log w') = inserts (log Samples.world_closed) /\
    bookings (store w') = bookings (store_seen Samples.world_closed).
Proof.
  apply (createBooking_inactive_ride Samples.world_closed Samples.two_seats
           Samples.closed_ride).
  - reflexivity.
  - vm_compute. reflexivity.
  - cbn. discriminate.
Defined.

(** ** An uncontended run *)

Lemma quiet_served (w : World) (ev : Event) (s : Store) :
  schedule w = [] ->
  schedule (served w ev s) = [] /\
  fault (next_tick (served w ev s)) = None /\
  store_seen (served w ev s) = s.
Proof.
  intros Hs. unfold store_seen, next_tick, served. cbn. rewrite Hs. cbn. auto.
Qed.

Lemma quiet_world (w : World) :
  schedule w = [] -> fault (next_tick w) = None /\ store_seen w = store w.
Proof.
  intros Hs. unfold store_seen, next_tick. rewrite Hs. cbn. auto.
Qed.

(** With no other client and no failing request, a booking for an
    active ride with enough seats goes through: the row is there and
    the seat count is the one read minus the seats booked. *)
Lemma createBooking_uncontended (w : World) (params : CreateBookingParams) (ride : Ride) :
  schedule w = [] ->
  rides (store w) !! params_ride_id params = Some ride ->
  ride_status ride = "active" ->
  params_seats_booked params <= available_seats ride ->
  bookings (store w) !! new_booking_id (backend w) (store w) = None ->
  exists (b : BookingWithRide) (w' : World),
    createBooking params w = (Ret (mkCreateBookingResult (Some b) None), w') /\
    id b = new_booking_id (backend w) (store w) /\
    bookings (store w') !! id b =
      Some (mkBooking (params_ride_id params) (params_passenger_id params)
              (params_seats_booked params) pending) /\
    rides (store w') !! params_ride_id params =
      Some (set_seats ride (available_seats ride - params_seats_booked params)).
Proof.
  intros Hs Hr Hact Hle Hfresh.
  destruct (quiet_world w Hs) as [Hf Hseen].
  unfold createBooking, try_catch, createBooking_try, bind.
  rewrite (select_ride_found w _ ride Hf) by (rewrite Hseen; exact Hr).
  cbn [ok error data].
  rewrite bool_decide_eq_false_2 by (intros [? ?]; discriminate).
  rewrite Hact, String.eqb_refl. cbn [negb].
  replace (available_seats ride <? params_seats_booked params) with false
    by (symmetry; apply Z.ltb_ge; exact Hle).
  cbv beta.
  set (w1 := served w _ _).
  destruct (quiet_served w (SelectRide (params_ride_id params)) (store_seen w) Hs)
    as (Hs1 & Hf1 & Hseen1). fold w1 in Hs1, Hf1, Hseen1.
  rewrite (insert_booking_fresh w1 _ Hf1)
    by (rewrite Hseen1, Hseen; exact Hfresh).
  cbn [ok error data].
  rewrite bool_decide_eq_false_2 by (intros [? ?]; discriminate).
  cbv beta.
  set (w2 := served w1 _ _).
  assert (Hf2 : fault (next_tick w2) = None)
    by (apply (quiet_served w1 _ _ Hs1)).
  assert (Hseen2 : store_seen w2 = store w2)
    by (apply (quiet_served w1 _ _ Hs1)).
  rewrite (update_seats_where_quiet w2 _ _ _ Hf2). cbn [ok_empty error].
  unfold ret. eexists _, _. split; [reflexivity |].
  assert (Hm : matches_update (store_seen w2) (params_ride_id params) (available_seats ride) = true).
  { rewrite Hseen2. unfold matches_update, w2, served. cbn.
    rewrite Hseen1, Hseen, Hr. apply bool_decide_eq_true_2. reflexivity. }
  rewrite Hm. unfold with_ride, served. cbn. rewrite !Hseen1, !Hseen.
  split; [reflexivity |]. split.
  - rewrite Hseen2. cbn. rewrite Hseen1, Hseen. apply lookup_insert_eq.
  - rewrite Hseen2. cbn. rewrite Hseen1, Hseen.
    rewrite lookup_alter_eq, Hr. reflexivity.
Qed.

(** C6: on a ride with available_seats = 2, a request for 3 seats
    resolves to an error and leaves no booking row; a request for 2
    seats, uncontended, succeeds and leaves available_seats = 0. *)
Theorem createBooking_example_two_seats (w : World) (rid pid : string) (ride : Ride) :
  schedule w = [] ->
  rides (store w) !! rid = Some ride ->
  available_seats ride = 2 ->
  ride_status ride = "active" ->
  bookings (store w) !! new_booking_id (backend w) (store w) = None ->
  (exists (e : JsErr) (w' : World),
     createBooking (mkParams rid pid 3) w = (Ret (mkCreateBookingResult None (Some e)), w') /\
     inserts (log w') = inserts (log w) /\
     bookings (store w') = bookings (store w)) /\
  (exists (b : BookingWithRide) (w' : World),
     createBooking (mkParams rid pid 2) w = (Ret (mkCreateBookingResult (Some b) None), w') /\
     bookings (store w') !! id b = Some (mkBooking rid pid 2 pending) /\
     available_seats <$> rides (store w') !! rid = Some 0).
Proof.
  intros Hs Hr Hseats Hact Hfresh.
  destruct (quiet_world w Hs) as [Hf Hseen]. split.
  - destruct (createBooking_rejected_after_read w (mkParams rid pid 3) ride Hf) as [e He].
    + rewrite Hseen. exact Hr.
    + right. cbn. lia.
    + eexists _, _. split; [exact He |]. cbn. rewrite Hseen. split; [| reflexivity].
      unfold inserts. rewrite omap_app. cbn. apply app_nil_r.
  - destruct (createBooking_uncontended w (mkParams rid pid 2) ride Hs Hr Hact)
      as (b & w' & Hrun & _ & Hb & Hride).
    + cbn. lia.
    + exact Hfresh.
    + exists b, w'. split; [exact Hrun |]. split; [exact Hb |].
      cbn in Hride. rewrite Hride, Hseats. reflexivity.
Qed.

Lemma createBooking_example_two_seats_witness :
  (exists (e : JsErr) (w' : World),
     createBooking (mkParams "ride-1" "passenger-1" 3) Samples.world0 =
       (Ret (mkCreateBookingResult None (Some e)), w') /\
     inserts (log w') = inserts (log Samples.world0) /\
     bookings (store w') = bookings (store Samples.world0)) /\
  (exists (b : BookingWithRide) (w' : World),
     createBooking (mkParams "ride-1" "passenger-1" 2) Samples.world0 =
       (Ret (mkCreateBookingResult (Some b) None), w') /\
     bookings (store w') !! id b = Some (mkBooking "ride-1" "passenger-1" 2 pending) /\
     available_seats <$> rides (store w') !! "ride-1" = Some 0).
Proof.
  apply (createBooking_example_two_seats Samples.world0 "ride-1" "passenger-1" Samples.ride1).
  - reflexivity.
  - vm_compute. reflexivity.
  - reflexivity.
  - reflexivity.
  - vm_compute. reflexivity.
Defined.

(** ** The lost race *)

(** C1: the update that loses the race is answered without an error,
    and createBooking only rolls back on an error.  When another
    client changes the seat count between the read and the conditional
    update, the update selects no row, yet createBooking resolves with
    the booking and a null error; it issues no delete and writes no
    seat count: the store it leaves is the other client's, with the
    new booking row in it. *)
Theorem createBooking_lost_race_not_rolled_back
    (s : Store) (be : Backend) (lg : list Event) (others : Store -> Store)
    (params : CreateBookingParams) (ride : Ride) :
  let bid := new_booking_id be s in
  let newBooking :=
    mkBooking (params_ride_id params) (params_passenger_id params)
              (params_seats_booked params) pending in
  let inserted := mkStore (rides s) (<[bid := newBooking]> (bookings s)) in
  rides s !! params_ride_id params = Some ride ->
  ride_status ride = "active" ->
  params_seats_booked params <= available_seats ride ->
  bookings s !! bid = None ->
  matches_update (others inserted) (params_ride_id params) (available_seats ride) = false ->
  exists (b : BookingWithRide) (w' : World),
    createBooking params (mkWorld s be [quiet; quiet; mkTick others None] lg) =
      (Ret (mkCreateBookingResult (Some b) None), w') /\
    id b = bid /\
    store w' = others inserted /\
    deletions (log w') = deletions lg /\
    (keeps_booking bid others -> bookings (store w') !! bid = Some newBooking).
Proof.
  intros bid newBooking inserted Hr Hact Hle Hfresh Hmiss.
  set (w := mkWorld s be [quiet; quiet; mkTick others None] lg).
  unfold createBooking, try_catch, createBooking_try, bind.
  rewrite (select_ride_found w _ ride eq_refl Hr).
  cbn [ok error data].
  rewrite bool_decide_eq_false_2 by (intros [? ?]; discriminate).
  rewrite Hact, String.eqb_refl. cbn [negb].
  replace (available_seats ride <? params_seats_booked params) with false
    by (symmetry; apply Z.ltb_ge; exact Hle).
  cbv beta.
  set (w1 := served w _ _).
  rewrite (insert_booking_fresh w1 _ eq_refl Hfresh).
  cbn [ok error data].
  rewrite bool_decide_eq_false_2 by (intros [? ?]; discriminate).
  cbv beta.
  set (w2 := served w1 _ _).
  rewrite (update_seats_where_quiet w2 _ _ _ eq_refl). cbn [ok_empty error].
  change (store_seen w2) with (others inserted). rewrite Hmiss.
  unfold ret. eexists _, _. split; [reflexivity |].
  split; [reflexivity |]. split; [reflexivity |]. split.
  - cbn. unfold deletions. rewrite !omap_app. cbn. rewrite !app_nil_r. reflexivity.
  - intros Hkeep. cbn. rewrite Hkeep. cbn. apply lookup_insert_eq.
Qed.

Lemma createBooking_lost_race_witness :
  exists (b : BookingWithRide) (w' : World),
    createBooking Samples.two_seats Samples.race_world =
      (Ret (mkCreateBookingResult (Some b) None), w') /\
    id b = "booking-1" /\
    bookings (store w') !! "booking-1" =
      Some (mkBooking "ride-1" "passenger-1" 2 pending) /\
    available_seats <$> rides (store w') !! "ride-1" = Some 1 /\
    deletions (log w') = [].
Proof.
  destruct (createBooking_lost_race_not_rolled_back Samples.store0 Samples.server []
              Samples.other_passenger Samples.two_seats Samples.ride1)
    as (b & w' & Hrun & Hid & Hstore & Hdel & Hrow).
  - vm_compute. reflexivity.
  - reflexivity.
  - cbn. lia.
  - vm_compute. reflexivity.
  - vm_compute. reflexivity.
  - exists b, w'. split; [exact Hrun |]. split; [exact Hid |].
    split; [apply Hrow; intros s; reflexivity |].
    split; [rewrite Hstore; vm_compute; reflexivity | exact Hdel].
Defined.

(** ** Status transitions *)

(** The status an update request leaves behind: the requested one when
    the request is served, the old one when it fails. *)
Lemma update_status_effect (w : World) (bid : string) (st : BookingStatus) (b : Booking) :
  bookings (store_seen w) !! bid = Some b ->
  status_of (snd (update_status bid st w)) bid =
    Some (match fault (next_tick w) with Some _ => status b | None => st end).
Proof.
  intros Hb. unfold update_status, request, status_of.
  destruct (fault (next_tick w)) as [[e|e]|]; cbn.
  - rewrite Hb. reflexivity.
  - rewrite Hb. reflexivity.
  - rewrite Hb. cbn. rewrite lookup_insert_eq. reflexivity.
Qed.

Lemma updateBookingStatus_store (w : World) (bid : string) (st : BookingStatus) :
  store (snd (updateBookingStatus bid st w)) = store (snd (update_status bid st w)).
Proof.
  unfold updateBookingStatus, bind.
  destruct (update_status bid st w) as [[r|e] w1]; reflexivity.
Qed.

Lemma handleBookingRequest_rejected_store (w : World) (bid : string) :
  store (snd (handleBookingRequest bid rejected w)) =
  store (snd (update_status bid cancelled w)).
Proof.
  unfold handleBookingRequest, try_catch, bind.
  destruct (update_status bid cancelled w) as [[r|e] w1]; [| reflexivity].
  destruct (error r); [reflexivity |].
  destruct (data r); reflexivity.
Qed.

(** The seat procedure and the writes of other clients before it, when
    they leave a booking row alone, leave it as the update wrote it. *)
Lemma rpc_update_ride_seats_keeps (w : World) (rid bid : string) (n : Z) :
  keeps_booking bid (before (next_tick w)) ->
  (forall r k, keeps_booking bid (fun s => snd (update_ride_seats (backend w) r k s))) ->
  bookings (store (snd (rpc_update_ride_seats rid n w))) !! bid = bookings (store w) !! bid.
Proof.
  intros Hothers Hproc. unfold rpc_update_ride_seats, request.
  destruct (fault (next_tick w)) as [[e|e]|]; cbn.
  - apply Hothers.
  - apply Hothers.
  - specialize (Hproc rid n (store_seen w)). cbv beta in Hproc.
    destruct (update_ride_seats (backend w) rid n (store_seen w)) as [err s'].
    cbn [snd store served] in *. rewrite Hproc. apply Hothers.
Qed.

(** Approval of an existing booking whose ride is visible: the status
    update, then exactly one call of the seat procedure. *)
Lemma handleBookingRequest_approved_steps (w : World) (bid : string) (b : Booking)
    (ride : Ride) :
  fault (next_tick w) = None ->
  bookings (store_seen w) !! bid = Some b ->
  rides (store_seen w) !! ride_id b = Some ride ->
  let w1 :=
    served w (UpdateBookingStatus bid confirmed)
      (mkStore (rides (store_seen w))
               (<[bid := set_status b confirmed]> (bookings (store_seen w)))) in
  exists (r : HandleResult) (w' : World),
    handleBookingRequest bid approved w = (Ret r, w') /\
    store w' = store (snd (rpc_update_ride_seats (ride_id b) (seats_booked b) w1)) /\
    rpc_calls (log w') = rpc_calls (log w) ++ [(ride_id b, seats_booked b)].
Proof.
  intros Hf Hb Hr w1.
  assert (Hlog : forall w2, log w2 =
            log (snd (rpc_update_ride_seats (ride_id b) (seats_booked b) w1)) ->
            rpc_calls (log w2) = rpc_calls (log w) ++ [(ride_id b, seats_booked b)]).
  { intros w2 ->. unfold rpc_update_ride_seats. rewrite request_log.
    unfold rpc_calls. cbn. rewrite !omap_app. cbn. rewrite app_nil_r. reflexivity. }
  unfold handleBookingRequest, try_catch, bind.
  rewrite (update_status_found w bid confirmed b Hf Hb). fold w1.
  cbn [ok error data]. unfold with_ride. cbn [rides ride_id set_status joined_rides row seats_booked].
  rewrite Hr. cbn [fmap option_fmap option_map].
  destruct (rpc_update_ride_seats (ride_id b) (seats_booked b) w1) as [[resp|e] w2] eqn:Hrpc.
  - destruct (error resp) as [seatsError|]; cbn.
    + eexists _, _. split; [reflexivity |]. split; [reflexivity |].
      cbn. unfold rpc_calls in *. rewrite omap_app. cbn. rewrite app_nil_r.
      apply (Hlog w2). reflexivity.
    + eexists _, _. split; [reflexivity |]. split; [reflexivity |].
      apply (Hlog w2). reflexivity.
  - cbn. eexists _, _. split; [reflexivity |]. split; [reflexivity |].
    cbn. unfold rpc_calls in *. rewrite omap_app. cbn. rewrite app_nil_r.
    apply (Hlog w2). reflexivity.
Qed.

(** C3: on a pending booking whose status update is served,
    'approved' leaves the status confirmed and calls update_ride_seats
    exactly once, with the booking's ride id and seats_booked;
    'rejected' leaves it cancelled and calls no seat procedure.  The
    booking's ride is visible, and neither the seat procedure nor
    another client rewrites the booking row meanwhile. *)
Theorem handleBookingRequest_pending (w : World) (bid : string) (b : Booking) (ride : Ride) :
  fault (next_tick w) = None ->
  bookings (store_seen w) !! bid = Some b ->
  status b = pending ->
  rides (store_seen w) !! ride_id b = Some ride ->
  keeps_booking bid (before (hd quiet (tl (schedule w)))) ->
  (forall r k, keeps_booking bid (fun s => snd (update_ride_seats (backend w) r k s))) ->
  (exists (r : HandleResult) (w' : World),
     handleBookingRequest bid approved w = (Ret r, w') /\
     status_of w' bid = Some confirmed /\
     rpc_calls (log w') = rpc_calls (log w) ++ [(ride_id b, seats_booked b)]) /\
  (exists (w' : World),
     handleBookingRequest bid rejected w = (Ret (mkHandleResult true None), w') /\
     status_of w' bid = Some cancelled /\
     rpc_calls (log w') = rpc_calls (log w)).
Proof.
  intros Hf Hb _ Hr Hothers Hproc. split.
  - destruct (handleBookingRequest_approved_steps w bid b ride Hf Hb Hr)
      as (r & w' & Hrun & Hstore & Hcalls).
    exists r, w'. split; [exact Hrun |]. split; [| exact Hcalls].
    unfold status_of. rewrite Hstore.
    rewrite rpc_update_ride_seats_keeps by assumption.
    cbn. rewrite lookup_insert_eq. reflexivity.
  - unfold handleBookingRequest, try_catch, bind.
    rewrite (update_status_found w bid cancelled b Hf Hb).
    cbn [ok error data]. unfold ret. cbn.
    eexists. split; [reflexivity |]. split.
    + unfold status_of. cbn. rewrite lookup_insert_eq. reflexivity.
    + unfold rpc_calls. cbn. rewrite omap_app. cbn. apply app_nil_r.
Qed.

Lemma handleBookingRequest_pending_witness :
  (exists (r : HandleResult) (w' : World),
     handleBookingRequest "booking-0" approved Samples.world_pending = (Ret r, w') /\
     status_of w' "booking-0" = Some confirmed /\
     rpc_calls (log w') = [("ride-1", 1)]) /\
  (exists (w' : World),
     handleBookingRequest "booking-0" rejected Samples.world_pending =
       (Ret (mkHandleResult true None), w') /\
     status_of w' "booking-0" = Some cancelled /\
     rpc_calls (log w') = []).
Proof.
  apply (handleBookingRequest_pending Samples.world_pending "booking-0"
           (mkBooking "ride-1" "passenger-0" 1 pending) Samples.ride1).
  - reflexivity.
  - vm_compute. reflexivity.
  - reflexivity.
  - vm_compute. reflexivity.
  - intros s. reflexivity.
  - intros r k s. reflexivity.
Defined.

(** C2 as stated fails: a cancelled booking is confirmed by a single
    handleBookingRequest 'approved', and by a single
    updateBookingStatus 'confirmed'. *)
Lemma cancelled_to_confirmed_counterexample :
  status_of Samples.world0 "booking-0" = Some cancelled /\
  status_of (snd (handleBookingRequest "booking-0" approved Samples.world0)) "booking-0"
    = Some confirmed /\
  status_of (snd (updateBookingStatus "booking-0" confirmed Samples.world0)) "booking-0"
    = Some confirmed.
Proof. vm_compute. repeat split. Qed.

(** C2 as amended: neither function looks at the booking's current
    status.  On a cancelled booking, handleBookingRequest 'rejected'
    and updateBookingStatus with a status other than confirmed never
    leave it confirmed, whatever the request's fate; but when the
    update is served, updateBookingStatus 'confirmed' and
    handleBookingRequest 'approved' do leave it confirmed (for the
    latter, the seat procedure it then calls and the other clients
    leaving the booking row alone). *)
Theorem cancelled_booking_transitions (w : World) (bid : string) (b : Booking) :
  bookings (store_seen w) !! bid = Some b ->
  status b = cancelled ->
  status_of (snd (handleBookingRequest bid rejected w)) bid <> Some confirmed /\
  (forall st, st <> confirmed ->
     status_of (snd (updateBookingStatus bid st w)) bid <> Some confirmed) /\
  (fault (next_tick w) = None ->
     status_of (snd (updateBookingStatus bid confirmed w)) bid = Some confirmed) /\
  (fault (next_tick w) = None ->
   keeps_booking bid (before (hd quiet (tl (schedule w)))) ->
   (forall r k, keeps_booking bid (fun s => snd (update_ride_seats (backend w) r k s))) ->
     status_of (snd (handleBookingRequest bid approved w)) bid = Some confirmed).
Proof.
  intros Hb Hst. repeat split.
  - unfold status_of. rewrite handleBookingRequest_rejected_store.
    fold (status_of (snd (update_status bid cancelled w)) bid).
    rewrite (update_status_effect w bid cancelled b Hb), Hst.
    destruct (fault (next_tick w)); discriminate.
  - intros st Hne. unfold status_of. rewrite updateBookingStatus_store.
    fold (status_of (snd (update_status bid st w)) bid).
    rewrite (update_status_effect w bid st b Hb), Hst.
    destruct (fault (next_tick w)); congruence.
  - intros Hf. unfold status_of. rewrite updateBookingStatus_store.
    fold (status_of (snd (update_status bid confirmed w)) bid).
    rewrite (update_status_effect w bid confirmed b Hb), Hf. reflexivity.
  - intros Hf Hothers Hproc.
    destruct (rides (store_seen w) !! ride_id b) as [ride|] eqn:Hr.
    + destruct (handleBookingRequest_approved_steps w bid b ride Hf Hb Hr)
        as (r & w' & Hrun & Hstore & _).
      rewrite Hrun. cbn [snd]. unfold status_of. rewrite Hstore.
      rewrite rpc_update_ride_seats_keeps by assumption.
      cbn. rewrite lookup_insert_eq. reflexivity.
    + unfold handleBookingRequest, try_catch, bind.
      rewrite (update_status_found w bid confirmed b Hf Hb).
      cbn [ok error data]. unfold with_ride.
      cbn [rides ride_id set_status joined_rides row seats_booked].
      rewrite Hr. cbn. unfold status_of. cbn. rewrite lookup_insert_eq. reflexivity.
Qed.

Lemma cancelled_booking_transitions_witness :
  status_of (snd (handleBookingRequest "booking-0" rejected Samples.world0)) "booking-0"
    <> Some confirmed /\
  status_of (snd (updateBookingStatus "booking-0" pending Samples.world0)) "booking-0"
    <> Some confirmed /\
  status_of (snd (updateBookingStatus "booking-0" confirmed Samples.world0)) "booking-0"
    = Some confirmed /\
  status_of (snd (handleBookingRequest "booking-0" approved Samples.world0)) "booking-0"
    = Some confirmed.
Proof.
  destruct (cancelled_booking_transitions Samples.world0 "booking-0"
              (mkBooking "ride-1" "passenger-0" 1 cancelled))
    as (Hrej & Hother & Hconf & Happ).
  - vm_compute. reflexivity.
  - reflexivity.
  - split; [exact Hrej |]. split; [apply Hother; discriminate |].
    split; [apply Hconf; reflexivity |].
    apply Happ.
    + reflexivity.
    + intros s. reflexivity.
    + intros r k s. reflexivity.
Defined.

(** ** No exception leaves createBooking *)

Lemma request_cases {A} (ev : Event) (exec : Backend -> Store -> Response A * Store)
    (w : World) :
  (fault (next_tick w) = None /\
   exists r s', request ev exec w = (Ret r, served w ev s')) \/
  (exists e, request ev exec w = (Throw e, served w ev (store_seen w))) \/
  (exists e, request ev exec w = (Ret (failed e), served w ev (store_seen w))).
Proof.
  unfold request. destruct (fault (next_tick w)) as [[e|e]|].
  - right. left. eauto.
  - right. right. eauto.
  - left. split; [reflexivity |]. destruct (exec _ _) as [r s']. eauto.
Qed.

Lemma three_ticks (w : World) (ev1 ev2 : Event) (s1 s2 : Store) :
  fault (next_tick w) = None ->
  fault (next_tick (served w ev1 s1)) = None ->
  fault (next_tick (served (served w ev1 s1) ev2 s2)) = None ->
  Forall (fun t => fault t = None) (take 3 (schedule w)).
Proof.
  unfold next_tick, served. cbn.
  destruct (schedule w) as [|t1 [|t2 [|t3 rest]]]; cbn; intros; repeat constructor; assumption.
Qed.

(** The try block either completes with the booking and a null error,
    all three of its requests having been served, or throws. *)
Lemma createBooking_try_cases (params : CreateBookingParams) (w : World) :
  (exists b w',
     createBooking_try params w = (Ret (mkCreateBookingResult (Some b) None), w') /\
     Forall (fun t => fault t = None) (take 3 (schedule w))) \/
  (exists e w', createBooking_try params w = (Throw e, w')).
Proof.
  unfold createBooking_try, bind, select_ride.
  match goal with |- context [request ?ev ?exec w] =>
    destruct (request_cases ev exec w) as [(Hf1 & r1 & s1 & ->) | [(e & ->) | (e & ->)]]
  end; [| right; eauto | right; cbn; unfold throw; eauto].
  destruct (bool_decide (is_Some (error r1))); [right; unfold throw; eauto |].
  destruct (data r1) as [ride|]; [| right; unfold throw; eauto].
  destruct (negb _); [right; unfold throw; eauto |].
  destruct (_ <? _); [right; unfold throw; eauto |].
  cbv beta. unfold insert_booking.
  match goal with |- context [request ?ev ?exec ?w1] =>
    destruct (request_cases ev exec w1) as [(Hf2 & r2 & s2 & ->) | [(e & ->) | (e & ->)]]
  end; [| right; eauto | right; cbn; unfold throw; eauto].
  destruct (bool_decide (is_Some (error r2))); [right; unfold throw; eauto |].
  destruct (data r2) as [b|]; [| right; unfold throw; eauto].
  cbv beta. unfold update_seats_where.
  match goal with |- context [request ?ev ?exec ?w2] =>
    destruct (request_cases ev exec w2) as [(Hf3 & r3 & s3 & ->) | [(e & ->) | (e & ->)]]
  end; [| right; eauto |].
  - destruct (error r3) as [updateError|].
    + right. cbv beta.
      destruct (truthy_string (id b)); cbv beta;
        [destruct (delete_booking _ _) as [[?|?] ?] |]; unfold ret, throw; eauto.
    + left. unfold ret. eexists _, _. split; [reflexivity |].
      exact (three_ticks w _ _ _ _ Hf1 Hf2 Hf3).
  - right. cbn [failed error]. cbv beta.
    destruct (truthy_string (id b)); cbv beta;
      [destruct (delete_booking _ _) as [[?|?] ?] |]; unfold ret, throw; eauto.
Qed.

End BookingFacts.

(** * Properties of the location services *)
Module LocationFacts.
Import Location.
Import LocationReadings.

Section WithRuntime.
Context `{JsRuntime}.

(** ** The watch *)







(** ** The one-shot retry chain *)





End WithRuntime.


Section WithRuntime.
Context `{JsRuntime}.

(** C10: without a geolocation API, startLocationTracking logs one
    warning and returns a function that does nothing; no position
    request, no watch and no callback follow. *)
Theorem startLocationTracking_unsupported (navigator : Navigator)
    (options : PositionOptions) :
  geolocation navigator = false ->
  let t := startLocationTracking navigator options in
  cleanup t = [] /\
  on_call t = [ConsoleWarn "Geolocation is not supported by this browser."] /\
  one_shot_chain t = [] /\
  watching t = [] /\
  callbacks (on_call t ++ one_shot_chain t ++ watching t ++ cleanup t) = [].
Proof.
  intros Hgeo t. subst t. unfold startLocationTracking. rewrite Hgeo.
  repeat split; reflexivity.
Qed.

(** ** Geocoding *)

Lemma append_assoc (a b c : string) : (a +:+ b) +:+ c = a +:+ (b +:+ c).
Proof.
  induction a as [|ch a IH]; [reflexivity |].
  change (String ch ((a +:+ b) +:+ c) = String ch (a +:+ (b +:+ c))).
  rewrite IH. reflexivity.
Qed.

(** The scoped query is the unscoped one with the region appended. *)
Lemma scoped_url_region (locationName : string) :
  scoped_url locationName = unscoped_url locationName +:+ ", Gujarat, India".
Proof.
  unfold scoped_url, unscoped_url. rewrite !append_assoc. reflexivity.
Qed.

(** What geocodeLocation returns and fetches, for every behaviour of
    the endpoint. *)
Lemma geocodeLocation_run (locationName : string) (w : World) :
  exists lg,
    geocodeLocation locationName w =
      (Ret (geocode_answer (endpoint w) locationName),
       mkWorld (driver_locations w) (faults w) (endpoint w) lg) /\
    fetched lg = fetched (log w) ++ geocode_fetches (endpoint w) locationName.
Proof.
  assert (Htail : forall (data : Json) (lg0 : list Event),
    exists lg,
      (let (o, w') :=
         (match first_result data with
          | Some hit =>
              let* coords := coords_from hit in
              emit (ConsoleLog "Found coordinates:") ;; ret (Some coords)
          | None =>
              emit (ConsoleWarn ("No results found for location: " +:+ locationName)) ;;
              ret None
          end) (mkWorld (driver_locations w) (faults w) (endpoint w) lg0) in
       match o with
       | Ret a => (Ret a, w')
       | Throw e => (emit (ConsoleError "Geocoding error:") ;; ret None) w'
       end) =
      (Ret (first_hit data ≫= coords_of),
       mkWorld (driver_locations w) (faults w) (endpoint w) lg) /\
      fetched lg = fetched lg0).
  { intros data lg0. unfold first_hit.
    destruct (first_result data) as [hit|]; cbn [mbind option_bind].
    - unfold coords_from, coords_of, parseFloat_of, bind.
      destruct (text_of (member "lat" hit)) as [lat_text|],
               (text_of (member "lon" hit)) as [lon_text|],
               (member "display_name" hit) as [[| b | n | text | items | members]|];
        unfold throw, emit, ret; cbn;
        eexists; (split; [reflexivity |]);
        unfold fetched; rewrite ?omap_app; cbn; rewrite ?app_nil_r; reflexivity.
    - unfold bind, emit, ret. cbn. eexists. split; [reflexivity |].
      unfold fetched. rewrite omap_app. cbn. apply app_nil_r. }
  unfold geocode_answer, geocode_fetches.
  unfold geocodeLocation, try_catch. unfold bind at 1. unfold emit at 1.
  unfold bind at 1. unfold fetch_json at 1.
  cbn [endpoint log driver_locations faults].
  destruct (endpoint w (scoped_url locationName)) as [e | [|] st [e | data]];
    cbn [json_of];
    try (unfold bind, emit, ret; cbn; eexists; split; [reflexivity |];
         unfold fetched; rewrite ?omap_app; cbn; rewrite ?app_nil_r, <- ?app_assoc;
         reflexivity).
  destruct (no_results data).
  - unfold bind at 1. unfold bind at 1. unfold emit at 1. unfold fetch_json at 1.
    cbn [endpoint log driver_locations faults].
    destruct (endpoint w (unscoped_url locationName)) as [e' | [|] st' [e' | data']];
      cbn [json_of mbind option_bind];
      try (unfold bind, emit, ret; cbn; eexists; split; [reflexivity |];
           unfold fetched; rewrite ?omap_app; cbn; rewrite ?app_nil_r, <- ?app_assoc;
           reflexivity).
    match goal with |- context [mkWorld _ _ _ ?lg0] =>
      destruct (Htail data' lg0) as (lg & Hrun & Hlg)
    end.
    exists lg. split; [exact Hrun |]. rewrite Hlg.
    unfold fetched. rewrite !omap_app. cbn. rewrite ?app_nil_r, <- ?app_assoc. reflexivity.
  - unfold bind at 1. unfold ret at 1.
    match goal with |- context [mkWorld _ _ _ ?lg0] =>
      destruct (Htail data lg0) as (lg & Hrun & Hlg)
    end.
    exists lg. split; [exact Hrun |]. rewrite Hlg.
    unfold fetched. rewrite !omap_app. cbn. rewrite ?app_nil_r, <- ?app_assoc. reflexivity.
Qed.

Lemma first_part_splits (s : string) :
  exists rest,
    s = first_part s +:+ rest /\
    ~ has_comma (first_part s) /\
    (rest = "" \/ exists more, rest = String "," more).
Proof.
  unfold has_comma. induction s as [|c s (rest & Hs & Hno & Hrest)].
  - exists "". cbn. tauto.
  - cbn [first_part]. destruct (Ascii.eqb c ",") eqn:Hc.
    + apply Ascii.eqb_eq in Hc. subst c. exists (String "," s).
      split; [reflexivity |]. split; [cbn; tauto | right; eauto].
    + apply Ascii.eqb_neq in Hc. exists rest.
      change (String c (first_part s) +:+ rest) with (String c (first_part s +:+ rest)).
      rewrite <- Hs. split; [reflexivity |]. split; [| exact Hrest].
      cbn. intros [Heq | Hin]; [congruence | tauto].
Qed.

(** A hit in the service's format is taken as it is: the coordinates
    are parseFloat of its lat and lon, the name its display_name up to
    the first comma. *)
Lemma coords_of_place (hit : Json) (p : Place) :
  is_place hit p ->
  truthy (Some hit) = true /\
  exists c rest,
    coords_of hit = Some c /\
    lat_of c = parseFloat (lat p) /\
    lng c = parseFloat (lon p) /\
    display_name p = name c +:+ rest /\
    ~ has_comma (name c) /\
    (rest = "" \/ exists more, rest = String "," more).
Proof.
  intros (members & -> & Hlat & Hlon & Hname). split; [reflexivity |].
  destruct (first_part_splits (display_name p)) as (rest & Hsplit & Hno & Hrest).
  unfold coords_of, member. rewrite Hname, Hlat, Hlon. cbn [text_of to_text].
  eexists _, rest. split; [reflexivity |]. cbn [lat_of lng name]. auto.
Qed.

(** C8: the scoped query, the input with ', Gujarat, India' appended,
    comes first, and at most the unscoped query follows it.  A scoped
    answer with results is used and nothing more is fetched; a scoped
    answer that is an empty array or null is followed by the unscoped
    query, and nothing else is: not a failed scoped call, not an
    answer with results.  The value is built from the first hit of the
    query that has one (parseFloat of its lat and lon, its
    display_name up to the first comma), and is null when the scoped
    call fails, or when the unscoped query fails or is empty too.  No
    exception leaves the function. *)
Theorem geocodeLocation_scoped_then_unscoped (locationName : string) (w : World) :
  let scoped := endpoint w (scoped_url locationName) in
  let unscoped := endpoint w (unscoped_url locationName) in
  let built_from (p : Place) (r : option Coords) : Prop :=
    exists c rest,
      r = Some c /\
      lat_of c = parseFloat (lat p) /\
      lng c = parseFloat (lon p) /\
      display_name p = name c +:+ rest /\
      ~ has_comma (name c) /\
      (rest = "" \/ exists more, rest = String "," more) in
  let empty (f : Fetched) : Prop :=
    exists st body, f = HttpResponse true st (inr body) /\ (body = JArray [] \/ body = JNull) in
  let failed (f : Fetched) : Prop :=
    (exists e, f = NetworkFailure e) \/
    (exists st body, f = HttpResponse false st body) \/
    (exists st e, f = HttpResponse true st (inl e)) in
  scoped_url locationName = unscoped_url locationName +:+ ", Gujarat, India" /\
  exists r w' later,
    geocodeLocation locationName w = (Ret r, w') /\
    fetched (log w') = fetched (log w) ++ scoped_url locationName :: later /\
    (later = [] \/ later = [unscoped_url locationName]) /\
    (forall st hit rest p,
       scoped = HttpResponse true st (inr (JArray (hit :: rest))) -> is_place hit p ->
       later = [] /\ built_from p r) /\
    (failed scoped -> later = [] /\ r = None) /\
    (empty scoped -> later = [unscoped_url locationName]) /\
    (later = [unscoped_url locationName] ->
       (exists st body, scoped = HttpResponse true st (inr body) /\
                        forall hit rest, body <> JArray (hit :: rest)) /\
       (forall st hit rest p,
          unscoped = HttpResponse true st (inr (JArray (hit :: rest))) -> is_place hit p ->
          built_from p r) /\
       (failed unscoped \/ empty unscoped -> r = None)).
Proof.
  intros scoped unscoped built_from empty failed.
  split; [apply scoped_url_region |].
  destruct (geocodeLocation_run locationName w) as (lg & Hrun & Hlg).
  eexists _, _, _. split; [exact Hrun |]. split; [exact Hlg |].
  unfold geocode_answer, geocode_fetches. fold scoped unscoped.
  assert (Hfailed : forall f, failed f -> json_of f = None).
  { intros f [(e & ->) | [(st & body & ->) | (st & e & ->)]]; reflexivity. }
  assert (Hempty : forall f, empty f ->
            exists body, json_of f = Some body /\ no_results body = true /\
                         first_hit body = None).
  { intros f (st & body & -> & [-> | ->]); eexists; repeat split; reflexivity. }
  assert (Hhits : forall f st hit rest p,
            f = HttpResponse true st (inr (JArray (hit :: rest))) -> is_place hit p ->
            json_of f = Some (JArray (hit :: rest)) /\
            no_results (JArray (hit :: rest)) = false /\
            built_from p (first_hit (JArray (hit :: rest)) ≫= coords_of)).
  { intros f st hit rest p -> Hplace.
    destruct (coords_of_place hit p Hplace) as (_ & c & more & Hc & Hrest).
    destruct Hplace as (members & -> & _).
    split; [reflexivity |]. split; [reflexivity |].
    change (first_hit (JArray (JObject members :: rest))) with (Some (JObject members)).
    cbn [mbind option_bind]. rewrite Hc. exists c, more. tauto. }
  split.
  { destruct (json_of scoped) as [data|]; [destruct (no_results data) |]; auto. }
  split.
  { intros st hit rest p Hs Hplace.
    destruct (Hhits scoped st hit rest p Hs Hplace) as (-> & -> & Hbuilt). auto. }
  split.
  { intros Hf. rewrite (Hfailed scoped Hf). auto. }
  split.
  { intros He. destruct (Hempty scoped He) as (body & -> & -> & _). reflexivity. }
  intros Hlater.
  destruct (json_of scoped) as [data|] eqn:Hdata; [| discriminate Hlater].
  destruct (no_results data) eqn:Hno; [| discriminate Hlater].
  split; [| split].
  - destruct scoped as [e | [|] st [e | body]]; try discriminate Hdata.
    injection Hdata as ->. exists st, data. split; [reflexivity |].
    intros hit rest ->. discriminate Hno.
  - intros st hit rest p Hu Hplace.
    destruct (Hhits unscoped st hit rest p Hu Hplace) as (-> & _ & Hbuilt). exact Hbuilt.
  - intros [Hf | He].
    + rewrite (Hfailed unscoped Hf). reflexivity.
    + destruct (Hempty unscoped He) as (body & -> & _ & Hnone).
      cbn [mbind option_bind]. rewrite Hnone. reflexivity.
Qed.

End WithRuntime.

Lemma geocodeLocation_scoped_then_unscoped_witness :
  (exists r w',
     @geocodeLocation LocationSamples.runtime "Ahmedabad" MoreSamples.web0 = (Ret r, w') /\
     fetched (log w') = [@scoped_url LocationSamples.runtime "Ahmedabad"] /\
     exists c rest,
       r = Some c /\ lat_of c = "23.0225" /\ lng c = "72.5714" /\
       "Ahmedabad, Ahmedabad District, Gujarat, India" = name c +:+ rest /\
       ~ has_comma (name c) /\
       (rest = "" \/ exists more, rest = String "," more)) /\
  (exists w',
     @geocodeLocation LocationSamples.runtime "Atlantis" MoreSamples.web0 = (Ret None, w') /\
     fetched (log w') = [@scoped_url LocationSamples.runtime "Atlantis";
                         @unscoped_url LocationSamples.runtime "Atlantis"]).
Proof.
  split.
  - destruct (@geocodeLocation_scoped_then_unscoped LocationSamples.runtime
                "Ahmedabad" MoreSamples.web0)
      as (_ & r & w' & later & Hrun & Hlog & _ & Hhit & _).
    destruct (Hhit "OK" (place_json MoreSamples.ahmedabad_hit) [] MoreSamples.ahmedabad_hit)
      as (Hlater & Hbuilt).
    + reflexivity.
    + eexists. repeat split; reflexivity.
    + exists r, w'. split; [exact Hrun |]. split; [rewrite Hlog, Hlater; reflexivity |].
      exact Hbuilt.
  - destruct (@geocodeLocation_scoped_then_unscoped LocationSamples.runtime
                "Atlantis" MoreSamples.web0)
      as (_ & r & w' & later & Hrun & Hlog & _ & _ & _ & Hempty & Hlater).
    assert (Hnone : exists st body,
              LocationSamples.no_answer = HttpResponse true st (inr body) /\
              (body = JArray [] \/ body = JNull)).
    { exists "OK", (JArray []). split; [reflexivity | left; reflexivity]. }
    specialize (Hempty Hnone). destruct (Hlater Hempty) as (_ & _ & Hnull).
    rewrite (Hnull (or_intror Hnone)) in Hrun.
    exists w'. split; [exact Hrun |]. rewrite Hlog, Hempty. reflexivity.
Defined.

Lemma startLocationTracking_unsupported_witness :
  let t := @startLocationTracking LocationSamples.runtime LocationSamples.no_geolocation
             default_options in
  cleanup t = [] /\
  on_call t = [ConsoleWarn "Geolocation is not supported by this browser."] /\
  one_shot_chain t = [] /\
  watching t = [] /\
  callbacks (on_call t ++ one_shot_chain t ++ watching t ++ cleanup t) = [].
Proof.
  exact (@startLocationTracking_unsupported LocationSamples.runtime
           LocationSamples.no_geolocation default_options eq_refl).
Defined.

End LocationFacts.

(** * Errors stay inside the result *)
Module ErrorFacts.

Section WithRuntime.
Context `{Location.JsRuntime}.

Lemma updateDriverLocation_try_cases (driverId : string) (location : Location.Location)
    (w : Location.World) :
  (is_Some (Location.toISOString (Location.timestamp location)) /\
   hd None (Location.faults w) = None /\
   exists w', Location.updateDriverLocation_try driverId location w =
                (Ret (Location.mkUpdateResult None), w')) \/
  ((Location.toISOString (Location.timestamp location) = None \/
    is_Some (hd None (Location.faults w))) /\
   exists e w', Location.updateDriverLocation_try driverId location w = (Throw e, w')).
Proof.
  unfold Location.updateDriverLocation_try, Location.date_toISOString, bind.
  destruct (Location.toISOString (Location.timestamp location)) as [iso|].
  - unfold ret, Location.upsert.
    destruct (hd None (Location.faults w)) as [[e|e]|]; cbn.
    + right. split; [right; eauto |]. eauto.
    + right. split; [right; eauto |]. unfold throw. eauto.
    + left. split; [eauto |]. split; [reflexivity |]. eauto.
  - right. split; [left; reflexivity |]. unfold throw. eauto.
Qed.

(** C9: createBooking and updateDriverLocation always resolve to a
    result and never throw.  When the try block completes, the error
    member is null (and createBooking carries the booking); when
    anything in it throws, the error member is non-null (and
    createBooking's booking is null).  A null error means every request
    made was served without a fault. *)
Theorem results_never_thrown :
  (forall (params : Bookings.CreateBookingParams) (w : Bookings.World),
     exists (r : Bookings.CreateBookingResult) (w' : Bookings.World),
       Bookings.createBooking params w = (Ret r, w') /\
       match fst (Bookings.createBooking_try params w) with
       | Ret _ => is_Some (Bookings.booking r) /\ Bookings.booking_error r = None
       | Throw _ => Bookings.booking r = None /\ is_Some (Bookings.booking_error r)
       end /\
       (Bookings.booking_error r = None ->
        Forall (fun t => Bookings.fault t = None) (take 3 (Bookings.schedule w)))) /\
  (forall (driverId : string) (location : Location.Location) (w : Location.World),
     exists (r : Location.UpdateResult) (w' : Location.World),
       Location.updateDriverLocation driverId location w = (Ret r, w') /\
       match fst (Location.updateDriverLocation_try driverId location w) with
       | Ret _ => Location.update_error r = None
       | Throw _ => is_Some (Location.update_error r)
       end /\
       (Location.update_error r = None <->
        is_Some (Location.toISOString (Location.timestamp location)) /\
        hd None (Location.faults w) = None)).
Proof.
  split.
  - intros params w. unfold Bookings.createBooking, try_catch.
    destruct (BookingFacts.createBooking_try_cases params w)
      as [(b & w' & -> & Hserved) | (e & w' & ->)]; cbn [fst].
    + eexists _, _. split; [reflexivity |]. cbn. eauto.
    + unfold Bookings.createBooking_catch, bind, Bookings.console_error, ret.
      eexists _, _. split; [reflexivity |]. cbn.
      split; [eauto |]. discriminate.
  - intros driverId location w. unfold Location.updateDriverLocation, try_catch.
    destruct (updateDriverLocation_try_cases driverId location w)
      as [(Hiso & Hfault & w' & ->) | (Hbad & e & w' & ->)]; cbn [fst].
    + eexists _, _. split; [reflexivity |]. cbn. tauto.
    + unfold Location.updateDriverLocation_catch, bind, Location.emit, ret.
      eexists _, _. split; [reflexivity |]. cbn. split; [eauto |].
      split; [discriminate |]. intros [[iso Hiso] Hfault].
      destruct Hbad as [Hnone | [f Hf]]; congruence.
Qed.

End WithRuntime.

Lemma results_never_thrown_witness :
  (exists r w',
     Bookings.createBooking Samples.two_seats Samples.offline_world = (Ret r, w') /\
     Bookings.booking r = None /\ is_Some (Bookings.booking_error r)) /\
  (exists r w',
     @Location.updateDriverLocation LocationSamples.runtime "driver-1"
       LocationSamples.here LocationSamples.table = (Ret r, w') /\
     is_Some (Location.update_error r)).
Proof.
  destruct (@results_never_thrown LocationSamples.runtime) as [Hcreate Hupdate].
  split.
  - destruct (Hcreate Samples.two_seats Samples.offline_world) as (r & w' & Hrun & Hcase & _).
    exists r, w'. split; [exact Hrun |]. exact Hcase.
  - destruct (Hupdate "driver-1" LocationSamples.here LocationSamples.table)
      as (r & w' & Hrun & Hcase & _).
    exists r, w'. split; [exact Hrun |]. exact Hcase.
Defined.

End ErrorFacts.

(** * Further properties of the booking service *)
Module BookingMore.
Import Bookings.
Import BookingFacts.

(** ** The compensation path of createBooking *)

(** The try block up to the conditional update, for a bookable ride
    and a fresh id, with nobody else writing before the update. *)
Lemma createBooking_reaches_update (s : Store) (be : Backend) (lg : list Event)
    (rest : list Tick) (params : CreateBookingParams) (ride : Ride) :
  rides s !! params_ride_id params = Some ride ->
  ride_status ride = "active" ->
  params_seats_booked params <= available_seats ride ->
  bookings s !! new_booking_id be s = None ->
  let bid := new_booking_id be s in
  let newBooking :=
    mkBooking (params_ride_id params) (params_passenger_id params)
              (params_seats_booked params) pending in
  let inserted := mkStore (rides s) (<[bid := newBooking]> (bookings s)) in
  createBooking_try params (mkWorld s be (quiet :: quiet :: rest) lg) =
    (let* updated :=
       update_seats_where (params_ride_id params)
         (available_seats ride - params_seats_booked params) (available_seats ride) in
     match error updated with
     | Some updateError =>
         (if truthy_string bid then delete_booking bid ;; ret tt else ret tt) ;;
         throw (ErrorObj "Failed to update seat availability. Please try again.")
     | None => ret (mkCreateBookingResult (Some (with_ride inserted bid newBooking)) None)
     end)
      (mkWorld inserted be rest
         (lg ++ [SelectRide (params_ride_id params)] ++ [InsertBooking newBooking])).
Proof.
  intros Hr Hact Hle Hfresh bid newBooking inserted.
  set (w := mkWorld s be (quiet :: quiet :: rest) lg).
  unfold createBooking_try at 1. unfold bind at 1.
  rewrite (select_ride_found w _ ride eq_refl Hr).
  cbn [ok error data].
  rewrite bool_decide_eq_false_2 by (intros [? ?]; discriminate).
  rewrite Hact, String.eqb_refl. cbn [negb].
  replace (available_seats ride <? params_seats_booked params) with false
    by (symmetry; apply Z.ltb_ge; exact Hle).
  cbv beta. unfold bind at 1.
  set (w1 := served w _ _).
  rewrite (insert_booking_fresh w1 _ eq_refl Hfresh).
  cbn [ok error data].
  rewrite bool_decide_eq_false_2 by (intros [? ?]; discriminate).
  cbv beta. unfold served, w1, served, w. cbn [store backend schedule log tl id].
  rewrite <- app_assoc. reflexivity.
Qed.

(** When the conditional update is answered with an error, the booking
    just inserted is deleted again: createBooking reports the failure
    and leaves the store exactly as it found it. *)
Theorem createBooking_update_error_restores_store
    (s : Store) (be : Backend) (lg : list Event)
    (params : CreateBookingParams) (ride : Ride) (e : JsErr) :
  rides s !! params_ride_id params = Some ride ->
  ride_status ride = "active" ->
  params_seats_booked params <= available_seats ride ->
  bookings s !! new_booking_id be s = None ->
  new_booking_id be s <> "" ->
  exists w',
    createBooking params
      (mkWorld s be [quiet; quiet; mkTick (fun s => s) (Some (RespondsError e))] lg) =
      (Ret (mkCreateBookingResult None
              (Some (ErrorObj "Failed to update seat availability. Please try again."))), w') /\
    store w' = s /\
    deletions (log w') = deletions lg ++ [new_booking_id be s].
Proof.
  intros Hr Hact Hle Hfresh Hid.
  unfold createBooking, try_catch.
  rewrite (createBooking_reaches_update s be lg _ params ride Hr Hact Hle Hfresh).
  assert (Htruthy : truthy_string (new_booking_id be s) = true).
  { unfold truthy_string. apply negb_true_iff, String.eqb_neq. exact Hid. }
  unfold bind, update_seats_where, delete_booking, request, throw, ret.
  cbn [next_tick schedule hd fault failed error served tl store backend log store_seen before].
  rewrite Htruthy.
  cbn [next_tick schedule hd fault quiet failed error served tl store backend log store_seen before
       ok_empty createBooking_catch].
  unfold createBooking_catch, bind, console_error, ret. cbn.
  eexists. split; [reflexivity |]. cbn. split.
  - destruct s as [rs bs]. cbn in *. f_equal.
    rewrite delete_insert_eq. apply delete_id. exact Hfresh.
  - unfold deletions. rewrite !omap_app. cbn. rewrite !app_nil_r. reflexivity.
Qed.

Lemma createBooking_update_error_restores_store_witness :
  exists w',
    createBooking Samples.two_seats
      (mkWorld Samples.store0 Samples.server
         [quiet; quiet; mkTick (fun s => s) (Some (RespondsError (PlainObj "timeout")))] []) =
      (Ret (mkCreateBookingResult None
              (Some (ErrorObj "Failed to update seat availability. Please try again."))), w') /\
    store w' = Samples.store0 /\
    deletions (log w') = ["booking-1"].
Proof.
  apply (createBooking_update_error_restores_store Samples.store0 Samples.server []
           Samples.two_seats Samples.ride1 (PlainObj "timeout")).
  - vm_compute. reflexivity.
  - reflexivity.
  - cbn. lia.
  - vm_compute. reflexivity.
  - discriminate.
Defined.

(** The answer to the compensating delete is never looked at: when the
    update is answered with an error and the delete then fails too, the
    booking row stays in the store while createBooking reports a
    failure. *)
Theorem createBooking_failed_delete_leaves_booking
    (s : Store) (be : Backend) (lg : list Event)
    (params : CreateBookingParams) (ride : Ride) (e : JsErr) (f : Fault) :
  rides s !! params_ride_id params = Some ride ->
  ride_status ride = "active" ->
  params_seats_booked params <= available_seats ride ->
  bookings s !! new_booking_id be s = None ->
  new_booking_id be s <> "" ->
  exists err w',
    createBooking params
      (mkWorld s be [quiet; quiet; mkTick (fun s => s) (Some (RespondsError e));
                     mkTick (fun s => s) (Some f)] lg) =
      (Ret (mkCreateBookingResult None (Some err)), w') /\
    bookings (store w') !! new_booking_id be s =
      Some (mkBooking (params_ride_id params) (params_passenger_id params)
              (params_seats_booked params) pending) /\
    deletions (log w') = deletions lg ++ [new_booking_id be s].
Proof.
  intros Hr Hact Hle Hfresh Hid.
  unfold createBooking, try_catch.
  rewrite (createBooking_reaches_update s be lg _ params ride Hr Hact Hle Hfresh).
  assert (Htruthy : truthy_string (new_booking_id be s) = true).
  { unfold truthy_string. apply negb_true_iff, String.eqb_neq. exact Hid. }
  unfold bind, update_seats_where, delete_booking, request, throw, ret.
  cbn [next_tick schedule hd fault failed error served tl store backend log store_seen before].
  rewrite Htruthy.
  cbn [next_tick schedule hd fault quiet failed error served tl store backend log store_seen before
       ok_empty].
  destruct f as [e'|e']; unfold createBooking_catch, bind, console_error, ret; cbn;
    eexists _, _; (split; [reflexivity |]); cbn; (split; [apply lookup_insert_eq |]);
    unfold deletions; rewrite !omap_app; cbn; rewrite !app_nil_r; reflexivity.
Qed.

Lemma createBooking_failed_delete_leaves_booking_witness :
  exists err w',
    createBooking Samples.two_seats
      (mkWorld Samples.store0 Samples.server
         [quiet; quiet; mkTick (fun s => s) (Some (RespondsError (PlainObj "timeout")));
          mkTick (fun s => s) (Some (RespondsError (PlainObj "timeout")))] []) =
      (Ret (mkCreateBookingResult None (Some err)), w') /\
    bookings (store w') !! "booking-1" =
      Some (mkBooking "ride-1" "passenger-1" 2 pending) /\
    deletions (log w') = ["booking-1"].
Proof.
  apply (createBooking_failed_delete_leaves_booking Samples.store0 Samples.server []
           Samples.two_seats Samples.ride1 (PlainObj "timeout")
           (RespondsError (PlainObj "timeout"))).
  - vm_compute. reflexivity.
  - reflexivity.
  - cbn. lia.
  - vm_compute. reflexivity.
  - discriminate.
Defined.

(** ** What a successful booking writes *)

(** An uncontended booking, with the world it leaves. *)
Lemma createBooking_success_world (w : World) (params : CreateBookingParams) (ride : Ride) :
  schedule w = [] ->
  rides (store w) !! params_ride_id params = Some ride ->
  ride_status ride = "active" ->
  params_seats_booked params <= available_seats ride ->
  bookings (store w) !! new_booking_id (backend w) (store w) = None ->
  let bid := new_booking_id (backend w) (store w) in
  let newBooking :=
    mkBooking (params_ride_id params) (params_passenger_id params)
              (params_seats_booked params) pending in
  let remaining := available_seats ride - params_seats_booked params in
  createBooking params w =
    (Ret (mkCreateBookingResult
            (Some (mkBookingWithRide bid newBooking (Some (params_ride_id params, ride))))
            None),
     mkWorld
       (mkStore (alter (fun r => set_seats r remaining) (params_ride_id params) (rides (store w)))
                (<[bid := newBooking]> (bookings (store w))))
       (backend w) []
       (log w ++ [SelectRide (params_ride_id params); InsertBooking newBooking;
                  UpdateRideSeatsWhere (params_ride_id params) remaining (available_seats ride)])).
Proof.
  intros Hs Hr Hact Hle Hfresh bid newBooking remaining.
  destruct w as [s be sch lg]. cbn in Hs, Hr, Hfresh. subst sch. cbn [store backend log] in *.
  set (w := mkWorld s be [] lg).
  unfold createBooking, try_catch, createBooking_try, bind.
  rewrite (select_ride_found w _ ride eq_refl Hr).
  cbn [ok error data].
  rewrite bool_decide_eq_false_2 by (intros [? ?]; discriminate).
  rewrite Hact, String.eqb_refl. cbn [negb].
  replace (available_seats ride <? params_seats_booked params) with false
    by (symmetry; apply Z.ltb_ge; exact Hle).
  cbv beta.
  set (w1 := served w _ _).
  rewrite (insert_booking_fresh w1 _ eq_refl Hfresh).
  cbn [ok error data].
  rewrite bool_decide_eq_false_2 by (intros [? ?]; discriminate).
  cbv beta.
  set (w2 := served w1 _ _).
  rewrite (update_seats_where_quiet w2 _ _ _ eq_refl). cbn [ok_empty error].
  assert (Hm : matches_update (store_seen w2) (params_ride_id params) (available_seats ride) = true).
  { unfold matches_update. cbn. rewrite Hr. apply bool_decide_eq_true_2. reflexivity. }
  rewrite Hm. unfold ret, with_ride, w2, w1, w, served. cbn. rewrite Hr. cbn.
  rewrite <- ?app_assoc. reflexivity.
Qed.

(** An uncontended booking of an active ride with enough seats writes
    exactly two rows: the ride's seat count becomes the one read minus
    the seats booked, and one pending booking row is added under the
    new id.  Every other row is as before, and the three requests are
    the read, the insert and the conditional update.  The ride embedded
    in the returned booking still carries the seat count of before. *)
Theorem createBooking_success_effect (w : World) (params : CreateBookingParams) (ride : Ride) :
  schedule w = [] ->
  rides (store w) !! params_ride_id params = Some ride ->
  ride_status ride = "active" ->
  params_seats_booked params <= available_seats ride ->
  bookings (store w) !! new_booking_id (backend w) (store w) = None ->
  let bid := new_booking_id (backend w) (store w) in
  let newBooking :=
    mkBooking (params_ride_id params) (params_passenger_id params)
              (params_seats_booked params) pending in
  let remaining := available_seats ride - params_seats_booked params in
  exists w',
    createBooking params w =
      (Ret (mkCreateBookingResult
              (Some (mkBookingWithRide bid newBooking (Some (params_ride_id params, ride))))
              None), w') /\
    store w' =
      mkStore (alter (fun r => set_seats r remaining) (params_ride_id params) (rides (store w)))
              (<[bid := newBooking]> (bookings (store w))) /\
    log w' =
      log w ++ [SelectRide (params_ride_id params); InsertBooking newBooking;
                UpdateRideSeatsWhere (params_ride_id params) remaining (available_seats ride)].
Proof.
  intros Hs Hr Hact Hle Hfresh bid newBooking remaining.
  eexists. split; [apply (createBooking_success_world w params ride Hs Hr Hact Hle Hfresh) |].
  split; reflexivity.
Qed.

Lemma createBooking_success_effect_witness :
  exists w',
    createBooking Samples.two_seats Samples.world0 =
      (Ret (mkCreateBookingResult
              (Some (mkBookingWithRide "booking-1"
                       (mkBooking "ride-1" "passenger-1" 2 pending)
                       (Some ("ride-1", Samples.ride1))))
              None), w') /\
    store w' =
      mkStore (alter (fun r => set_seats r 0) "ride-1" (rides Samples.store0))
              (<["booking-1" := mkBooking "ride-1" "passenger-1" 2 pending]>
                 (bookings Samples.store0)) /\
    log w' =
      [SelectRide "ride-1"; InsertBooking (mkBooking "ride-1" "passenger-1" 2 pending);
       UpdateRideSeatsWhere "ride-1" 0 2].
Proof.
  apply (createBooking_success_effect Samples.world0 Samples.two_seats Samples.ride1).
  - reflexivity.
  - vm_compute. reflexivity.
  - reflexivity.
  - cbn. lia.
  - vm_compute. reflexivity.
Defined.

(** The only check on the requested seat count is the upper bound: a
    request for zero or a negative number of seats is booked like any
    other, and the seat count written is not below the one read (above
    it for a negative request). *)
Theorem createBooking_accepts_nonpositive_seats (w : World) (params : CreateBookingParams)
    (ride : Ride) :
  schedule w = [] ->
  rides (store w) !! params_ride_id params = Some ride ->
  ride_status ride = "active" ->
  0 <= available_seats ride ->
  params_seats_booked params <= 0 ->
  bookings (store w) !! new_booking_id (backend w) (store w) = None ->
  exists b w' ride',
    createBooking params w = (Ret (mkCreateBookingResult (Some b) None), w') /\
    seats_booked <$> bookings (store w') !! id b = Some (params_seats_booked params) /\
    rides (store w') !! params_ride_id params = Some ride' /\
    available_seats ride' = available_seats ride - params_seats_booked params /\
    available_seats ride <= available_seats ride'.
Proof.
  intros Hs Hr Hact Hseats Hn Hfresh.
  destruct (createBooking_uncontended w params ride Hs Hr Hact) as (b & w' & Hrun & _ & Hb & Hride).
  - lia.
  - exact Hfresh.
  - exists b, w', (set_seats ride (available_seats ride - params_seats_booked params)).
    split; [exact Hrun |]. split; [rewrite Hb; reflexivity |].
    split; [exact Hride |]. cbn. split; [reflexivity | lia].
Qed.

Lemma createBooking_accepts_nonpositive_seats_witness :
  exists b w' ride',
    createBooking (mkParams "ride-1" "passenger-1" (-3)) Samples.world0 =
      (Ret (mkCreateBookingResult (Some b) None), w') /\
    seats_booked <$> bookings (store w') !! id b = Some (-3) /\
    rides (store w') !! "ride-1" = Some ride' /\
    available_seats ride' = 2 - -3 /\
    2 <= available_seats ride'.
Proof.
  apply (createBooking_accepts_nonpositive_seats Samples.world0
           (mkParams "ride-1" "passenger-1" (-3)) Samples.ride1).
  - reflexivity.
  - vm_compute. reflexivity.
  - reflexivity.
  - cbn. lia.
  - cbn. lia.
  - vm_compute. reflexivity.
Defined.

(** Seats are taken twice on the way to a confirmed booking: the
    booking's creation has already written the seat count minus the
    seats booked when its approval hands the same seats to the
    update_ride_seats procedure. *)
Theorem create_then_approve_adjusts_seats_again (w : World) (params : CreateBookingParams)
    (ride : Ride) :
  schedule w = [] ->
  rides (store w) !! params_ride_id params = Some ride ->
  ride_status ride = "active" ->
  params_seats_booked params <= available_seats ride ->
  bookings (store w) !! new_booking_id (backend w) (store w) = None ->
  let created := snd (createBooking params w) in
  let approved_world :=
    snd (handleBookingRequest (new_booking_id (backend w) (store w)) approved created) in
  available_seats <$> rides (store created) !! params_ride_id params =
    Some (available_seats ride - params_seats_booked params) /\
  rpc_calls (log approved_world) =
    rpc_calls (log w) ++ [(params_ride_id params, params_seats_booked params)].
Proof.
  intros Hs Hr Hact Hle Hfresh created approved_world. subst approved_world created.
  rewrite (createBooking_success_world w params ride Hs Hr Hact Hle Hfresh). cbn [snd].
  split.
  - cbn [store rides]. rewrite lookup_alter_eq, Hr. reflexivity.
  - match goal with |- context [handleBookingRequest ?bid approved ?w1] =>
      destruct (handleBookingRequest_approved_steps w1 bid
                  (mkBooking (params_ride_id params) (params_passenger_id params)
                     (params_seats_booked params) pending)
                  (set_seats ride (available_seats ride - params_seats_booked params)))
        as (r & w2 & -> & _ & Hcalls)
    end.
    + reflexivity.
    + cbn. apply lookup_insert_eq.
    + cbn. rewrite lookup_alter_eq, Hr. reflexivity.
    + cbn [snd]. rewrite Hcalls. cbn [log ride_id seats_booked].
      unfold rpc_calls. rewrite omap_app. cbn. rewrite app_nil_r. reflexivity.
Qed.

Lemma create_then_approve_adjusts_seats_again_witness :
  let created := snd (createBooking Samples.two_seats Samples.world0) in
  let approved_world := snd (handleBookingRequest "booking-1" approved created) in
  available_seats <$> rides (store created) !! "ride-1" = Some (2 - 2) /\
  rpc_calls (log approved_world) = [("ride-1", 2)].
Proof.
  apply (create_then_approve_adjusts_seats_again Samples.world0 Samples.two_seats Samples.ride1).
  - reflexivity.
  - vm_compute. reflexivity.
  - reflexivity.
  - cbn. lia.
  - vm_compute. reflexivity.
Defined.

(** ** The messages of a rejected booking *)

(** When the read is served, the message of a rejected booking tells
    the reason, and the ride's status is checked before its seats: a
    ride that is not there gives 'Failed to verify ride availability'
    (never 'Ride not found'), a ride that is not active gives 'This ride
    is no longer available for booking' whatever its seat count, and an
    active ride with too few seats gives 'Only N seats available' with
    the count read. *)
Theorem createBooking_rejection_messages (w : World) (params : CreateBookingParams) :
  fault (next_tick w) = None ->
  let answer (text : string) : Outcome CreateBookingResult :=
    Ret (mkCreateBookingResult None (Some (ErrorObj text))) in
  (rides (store_seen w) !! params_ride_id params = None ->
   fst (createBooking params w) = answer "Failed to verify ride availability") /\
  (forall ride,
     rides (store_seen w) !! params_ride_id params = Some ride ->
     ride_status ride <> "active" ->
     fst (createBooking params w) = answer "This ride is no longer available for booking") /\
  (forall ride,
     rides (store_seen w) !! params_ride_id params = Some ride ->
     ride_status ride = "active" ->
     available_seats ride < params_seats_booked params ->
     fst (createBooking params w) =
       answer ("Only " +:+ pretty (available_seats ride) +:+ " seats available")).
Proof.
  intros Hf answer. subst answer. cbv beta. repeat split.
  - intros Hnone. unfold createBooking, try_catch, createBooking_try, bind, select_ride, request.
    rewrite Hf, Hnone. cbn [failed error].
    rewrite bool_decide_eq_true_2 by eauto. reflexivity.
  - intros ride Hr Hna. unfold createBooking, try_catch, createBooking_try, bind.
    rewrite (select_ride_found w _ ride Hf Hr). cbn [ok error data].
    rewrite bool_decide_eq_false_2 by (intros [? ?]; discriminate).
    replace (String.eqb (ride_status ride) "active") with false
      by (symmetry; apply String.eqb_neq; exact Hna).
    reflexivity.
  - intros ride Hr Hact Hlt. unfold createBooking, try_catch, createBooking_try, bind.
    rewrite (select_ride_found w _ ride Hf Hr). cbn [ok error data].
    rewrite bool_decide_eq_false_2 by (intros [? ?]; discriminate).
    rewrite Hact, String.eqb_refl. cbn [negb].
    apply Z.ltb_lt in Hlt. rewrite Hlt. reflexivity.
Qed.

Lemma createBooking_rejection_messages_witness :
  fst (createBooking (mkParams "ride-9" "passenger-1" 1) Samples.world0) =
    Ret (mkCreateBookingResult None (Some (ErrorObj "Failed to verify ride availability"))) /\
  fst (createBooking Samples.three_seats Samples.world_closed) =
    Ret (mkCreateBookingResult None
           (Some (ErrorObj "This ride is no longer available for booking"))) /\
  fst (createBooking Samples.three_seats Samples.world0) =
    Ret (mkCreateBookingResult None (Some (ErrorObj "Only 2 seats available"))).
Proof.
  split; [| split].
  - apply (createBooking_rejection_messages Samples.world0
             (mkParams "ride-9" "passenger-1" 1) eq_refl).
    vm_compute. reflexivity.
  - apply (createBooking_rejection_messages Samples.world_closed Samples.three_seats eq_refl)
      with (ride := Samples.closed_ride).
    + vm_compute. reflexivity.
    + cbn. discriminate.
  - apply (createBooking_rejection_messages Samples.world0 Samples.three_seats eq_refl)
      with (ride := Samples.ride1).
    + vm_compute. reflexivity.
    + reflexivity.
    + cbn. lia.
Defined.

(** ** handleBookingRequest and updateBookingStatus at their edges *)

(** handleBookingRequest never throws: it always resolves to a result
    in which success is true exactly when error is null, and a true
    success means the status update was served. *)
Theorem handleBookingRequest_always_resolves (bookingId : string) (decision : Decision)
    (w : World) :
  exists r w',
    handleBookingRequest bookingId decision w = (Ret r, w') /\
    (success r = true <-> handle_error r = None) /\
    (success r = true -> fault (next_tick w) = None).
Proof.
  unfold handleBookingRequest, try_catch, bind, update_status.
  match goal with |- context [request ?ev ?exec w] =>
    destruct (request_cases ev exec w) as [(Hf1 & r1 & s1 & ->) | [(e & ->) | (e & ->)]]
  end.
  - destruct (error r1) as [updateError|].
    { unfold throw, console_error, ret. cbn. eexists _, _. split; [reflexivity |].
      cbn. split; [split; discriminate | discriminate]. }
    destruct (data r1) as [b|].
    2:{ unfold throw, console_error, ret. cbn. eexists _, _. split; [reflexivity |].
        cbn. split; [split; discriminate | discriminate]. }
    destruct decision, (joined_rides b) as [[rid ride]|];
      try (unfold ret; cbn; eexists _, _; split; [reflexivity |]; cbn; tauto).
    cbv beta. unfold rpc_update_ride_seats.
    match goal with |- context [request ?ev ?exec ?w1] =>
      destruct (request_cases ev exec w1) as [(Hf2 & r2 & s2 & ->) | [(e & ->) | (e & ->)]]
    end.
    + destruct (error r2); unfold throw, console_error, ret; cbn;
        eexists _, _; (split; [reflexivity |]); cbn;
        first [tauto | split; [split; discriminate | discriminate]].
    + unfold console_error, ret. cbn. eexists _, _. split; [reflexivity |].
      cbn. split; [split; discriminate | discriminate].
    + unfold throw, console_error, ret. cbn. eexists _, _. split; [reflexivity |].
      cbn. split; [split; discriminate | discriminate].
  - unfold console_error, ret. cbn. eexists _, _. split; [reflexivity |].
    cbn. split; [split; discriminate | discriminate].
  - unfold throw, console_error, ret. cbn. eexists _, _. split; [reflexivity |].
    cbn. split; [split; discriminate | discriminate].
Qed.

Lemma handleBookingRequest_always_resolves_witness :
  exists r w',
    handleBookingRequest "booking-0" rejected Samples.offline_world = (Ret r, w') /\
    (success r = true <-> handle_error r = None) /\
    (success r = true -> fault (next_tick Samples.offline_world) = None).
Proof.
  exact (handleBookingRequest_always_resolves "booking-0" rejected Samples.offline_world).
Defined.

(** For a booking id that is not in the table, handleBookingRequest
    reports a failure with the client library's no-row error (its
    message when it is an Error, the generic text otherwise), calls no
    seat procedure and changes nothing in the store. *)
Theorem handleBookingRequest_unknown_booking (bookingId : string) (decision : Decision)
    (w : World) :
  fault (next_tick w) = None ->
  bookings (store_seen w) !! bookingId = None ->
  exists w',
    handleBookingRequest bookingId decision w =
      (Ret (mkHandleResult false
              (Some (if instanceof_Error (no_rows (backend w))
                     then message (no_rows (backend w))
                     else "Failed to handle booking request"))), w') /\
    store w' = store_seen w /\
    rpc_calls (log w') = rpc_calls (log w).
Proof.
  intros Hf Hnone.
  unfold handleBookingRequest, try_catch, bind, update_status, request.
  rewrite Hf, Hnone. cbn [failed error].
  unfold throw, console_error, ret. cbn.
  eexists. split; [reflexivity |]. cbn. split; [reflexivity |].
  unfold rpc_calls. rewrite !omap_app. cbn. rewrite !app_nil_r. reflexivity.
Qed.

Lemma handleBookingRequest_unknown_booking_witness :
  exists w',
    handleBookingRequest "booking-7" approved Samples.world0 =
      (Ret (mkHandleResult false (Some "Failed to handle booking request")), w') /\
    store w' = store_seen Samples.world0 /\
    rpc_calls (log w') = rpc_calls (log Samples.world0).
Proof.
  apply (handleBookingRequest_unknown_booking "booking-7" approved Samples.world0).
  - reflexivity.
  - vm_compute. reflexivity.
Defined.

(** Approval is two requests with no compensation between them: when
    the status update is served and the seat procedure then fails,
    handleBookingRequest reports a failure while the booking stays
    confirmed. *)
Theorem handleBookingRequest_failed_seats_keeps_confirmed (w : World) (bookingId : string)
    (b : Booking) (ride : Ride) (f : Fault) :
  fault (next_tick w) = None ->
  bookings (store_seen w) !! bookingId = Some b ->
  rides (store_seen w) !! ride_id b = Some ride ->
  fault (hd quiet (tl (schedule w))) = Some f ->
  keeps_booking bookingId (before (hd quiet (tl (schedule w)))) ->
  exists text w',
    handleBookingRequest bookingId approved w = (Ret (mkHandleResult false (Some text)), w') /\
    status_of w' bookingId = Some confirmed /\
    rpc_calls (log w') = rpc_calls (log w) ++ [(ride_id b, seats_booked b)].
Proof.
  intros Hf Hb Hr Hfault Hothers.
  unfold handleBookingRequest, try_catch, bind.
  rewrite (update_status_found w bookingId confirmed b Hf Hb).
  cbn [ok error data]. unfold with_ride.
  cbn [rides ride_id set_status joined_rides row seats_booked].
  rewrite Hr. cbn [fmap option_fmap option_map].
  unfold rpc_update_ride_seats, request.
  set (w1 := served w _ _).
  assert (Hf1 : fault (next_tick w1) = Some f) by exact Hfault.
  assert (Hkept : status_of (served w1 (RpcUpdateRideSeats (ride_id b) (seats_booked b))
                               (store_seen w1)) bookingId = Some confirmed).
  { unfold status_of, store_seen. cbn [store served].
    change (next_tick w1) with (hd quiet (tl (schedule w))).
    rewrite (Hothers (store w1)). cbn. rewrite lookup_insert_eq. reflexivity. }
  assert (Hcalls : rpc_calls (log (served w1 (RpcUpdateRideSeats (ride_id b) (seats_booked b))
                                     (store_seen w1)) ++ [ConsoleError "Error handling booking request:"]) =
                   rpc_calls (log w) ++ [(ride_id b, seats_booked b)]).
  { unfold rpc_calls. cbn. rewrite !omap_app. cbn. rewrite !app_nil_r. reflexivity. }
  rewrite Hf1.
  destruct f as [e|e]; unfold throw, console_error, ret; cbn [failed error fst snd];
    eexists _, _; (split; [reflexivity |]); cbn [store log]; (split; [exact Hkept | exact Hcalls]).
Qed.

Lemma handleBookingRequest_failed_seats_keeps_confirmed_witness :
  exists text w',
    handleBookingRequest "booking-0" approved
      (mkWorld Samples.store_pending Samples.server
         [quiet; mkTick (fun s => s) (Some (RespondsError (ErrorObj "function not found")))] []) =
      (Ret (mkHandleResult false (Some text)), w') /\
    status_of w' "booking-0" = Some confirmed /\
    rpc_calls (log w') = [("ride-1", 1)].
Proof.
  apply (handleBookingRequest_failed_seats_keeps_confirmed
           (mkWorld Samples.store_pending Samples.server
              [quiet; mkTick (fun s => s) (Some (RespondsError (ErrorObj "function not found")))] [])
           "booking-0" (mkBooking "ride-1" "passenger-0" 1 pending) Samples.ride1
           (RespondsError (ErrorObj "function not found"))).
  - reflexivity.
  - vm_compute. reflexivity.
  - vm_compute. reflexivity.
  - reflexivity.
  - intros s. reflexivity.
Defined.

(** updateBookingStatus has no try/catch: it throws exactly when its
    request rejects, with the rejection.  Whatever happens, it issues
    one request, calls no seat procedure, and writes at most the one
    booking row: rides and all other bookings are as the request found
    them. *)
Theorem updateBookingStatus_one_row (bookingId : string) (st : BookingStatus) (w : World) :
  let run := updateBookingStatus bookingId st w in
  (forall e, fst run = Throw e <-> fault (next_tick w) = Some (Rejects e)) /\
  rides (store (snd run)) = rides (store_seen w) /\
  (forall other, other <> bookingId ->
     bookings (store (snd run)) !! other = bookings (store_seen w) !! other) /\
  log (snd run) = log w ++ [UpdateBookingStatus bookingId st].
Proof.
  cbv zeta. unfold updateBookingStatus, bind, update_status, request.
  destruct (fault (next_tick w)) as [[e|e]|]; cbn.
  - repeat split; try reflexivity; intros; congruence.
  - repeat split; try reflexivity; intros; congruence.
  - destruct (bookings (store_seen w) !! bookingId) as [b|] eqn:Hb; cbn;
      repeat split; try reflexivity; try (intros; congruence).
    intros other Hne. apply lookup_insert_ne. congruence.
Qed.

Lemma updateBookingStatus_one_row_witness :
  let run := updateBookingStatus "booking-0" confirmed Samples.offline_world in
  fst run = Throw (PlainObj "Failed to fetch") /\
  rides (store (snd run)) = rides (store_seen Samples.offline_world) /\
  log (snd run) = [UpdateBookingStatus "booking-0" confirmed].
Proof.
  destruct (updateBookingStatus_one_row "booking-0" confirmed Samples.offline_world)
    as (Hthrow & Hrides & _ & Hlog).
  split; [apply Hthrow; reflexivity |]. split; [exact Hrides | exact Hlog].
Defined.

End BookingMore.

(** * Properties of the cancel hook *)
Module CancelFacts.
Import Bookings.
Import Control.
Import CancelHook.

(** The request behind cancelBooking, in the three ways it can go. *)
Lemma cancel_request_cases (bookingId : string) (w : World) :
  (exists e, updateBookingStatus bookingId cancelled w =
               (Throw e, served w (UpdateBookingStatus bookingId cancelled) (store_seen w)) /\
             fault (next_tick w) = Some (Rejects e)) \/
  (exists e, updateBookingStatus bookingId cancelled w =
               (Ret (mkUpdateStatusResult None (Some e)),
                served w (UpdateBookingStatus bookingId cancelled) (store_seen w)) /\
             (fault (next_tick w) = Some (RespondsError e) \/
              fault (next_tick w) = None /\ bookings (store_seen w) !! bookingId = None /\
              e = no_rows (backend w))) \/
  (exists b, updateBookingStatus bookingId cancelled w =
               (Ret (mkUpdateStatusResult
                       (Some (mkBookingWithRide bookingId (set_status b cancelled) None)) None),
                served w (UpdateBookingStatus bookingId cancelled)
                  (mkStore (rides (store_seen w))
                     (<[bookingId := set_status b cancelled]> (bookings (store_seen w))))) /\
             fault (next_tick w) = None /\ bookings (store_seen w) !! bookingId = Some b).
Proof.
  unfold updateBookingStatus, bind, update_status, request.
  destruct (fault (next_tick w)) as [[e|e]|].
  - left. eauto.
  - right. left. exists e. cbn. eauto.
  - destruct (bookings (store_seen w) !! bookingId) as [b|].
    + right. right. exists b. cbn. eauto.
    + right. left. exists (no_rows (backend w)). cbn. eauto 10.
Qed.

(** cancelBooking never throws, even though updateBookingStatus can.
    Whatever the request does, loading is false afterwards and exactly
    one notification has been shown: the success text with a null error
    state when a booking is returned, or the error text, also kept as
    the hook's error, when undefined is returned. *)
Theorem cancelBooking_always_settles (bookingId : string) (h : Hook) :
  exists r h' note,
    cancelBooking bookingId h = (Ret r, h') /\
    loading h' = false /\
    notifications h' = notifications h ++ [note] /\
    match r with
    | Returned _ =>
        note = ("Ride cancelled successfully", notify_success) /\ hook_error h' = None
    | Undefined =>
        snd note = notify_error /\ hook_error h' = Some (fst note)
    end.
Proof.
  unfold cancelBooking, finally, try_catch, bind, setLoading, setError, booking_service, lift.
  cbn [remote].
  destruct (cancel_request_cases bookingId (remote h))
    as [(e & -> & _) | [(e & -> & _) | (b & -> & _)]];
    cbn [update_error updated_booking]; unfold throw, showNotification, ret; cbn;
    eexists _, _, _; (split; [reflexivity |]); cbn; auto.
Qed.

(** Cancelling an existing booking whose update is served returns the
    row with status cancelled and shows the success text.  It is a
    single request on the bookings table: no seat procedure is called
    and the ride's seat count is not given back. *)
Theorem cancelBooking_marks_cancelled (bookingId : string) (h : Hook) (b : Booking) :
  fault (next_tick (remote h)) = None ->
  bookings (store_seen (remote h)) !! bookingId = Some b ->
  exists h',
    cancelBooking bookingId h =
      (Ret (Returned (Some (mkBookingWithRide bookingId (set_status b cancelled) None))), h') /\
    status_of (remote h') bookingId = Some cancelled /\
    rides (store (remote h')) = rides (store_seen (remote h)) /\
    log (remote h') = log (remote h) ++ [UpdateBookingStatus bookingId cancelled] /\
    notifications h' = notifications h ++ [("Ride cancelled successfully", notify_success)] /\
    hook_error h' = None /\
    loading h' = false.
Proof.
  intros Hf Hb.
  unfold cancelBooking, finally, try_catch, bind, setLoading, setError, booking_service, lift.
  cbn [remote].
  destruct (cancel_request_cases bookingId (remote h))
    as [(e & _ & He) | [(e & _ & [He | (_ & He & _)]) | (b' & -> & _ & Hb')]];
    try congruence.
  assert (b' = b) by congruence. subst b'.
  cbn [update_error updated_booking]. unfold showNotification, ret. cbn.
  eexists. split; [reflexivity |]. cbn.
  split; [unfold status_of; cbn; rewrite lookup_insert_eq; reflexivity |].
  repeat split; reflexivity.
Qed.

Lemma cancelBooking_marks_cancelled_witness :
  exists h',
    cancelBooking "booking-0" (mkHook false None [] Samples.world_pending) =
      (Ret (Returned (Some (mkBookingWithRide "booking-0"
                              (mkBooking "ride-1" "passenger-0" 1 cancelled) None))), h') /\
    status_of (remote h') "booking-0" = Some cancelled /\
    rides (store (remote h')) = rides (store_seen Samples.world_pending) /\
    log (remote h') = [UpdateBookingStatus "booking-0" cancelled] /\
    notifications h' = [("Ride cancelled successfully", notify_success)] /\
    hook_error h' = None /\
    loading h' = false.
Proof.
  apply (cancelBooking_marks_cancelled "booking-0" (mkHook false None [] Samples.world_pending)
           (mkBooking "ride-1" "passenger-0" 1 pending)).
  - reflexivity.
  - vm_compute. reflexivity.
Defined.

(** When the request rejects, answers with an error, or finds no
    booking under the id, cancelBooking returns undefined and writes
    nothing; the text shown and kept is the error's message when the
    error is an Error, and 'Failed to cancel booking' otherwise. *)
Theorem cancelBooking_failure (bookingId : string) (h : Hook) (e : JsErr) :
  fault (next_tick (remote h)) = Some (Rejects e) \/
  fault (next_tick (remote h)) = Some (RespondsError e) \/
  (fault (next_tick (remote h)) = None /\
   bookings (store_seen (remote h)) !! bookingId = None /\
   e = no_rows (backend (remote h))) ->
  let text := if instanceof_Error e then message e else "Failed to cancel booking" in
  exists h',
    cancelBooking bookingId h = (Ret Undefined, h') /\
    store (remote h') = store_seen (remote h) /\
    notifications h' = notifications h ++ [(text, notify_error)] /\
    hook_error h' = Some text /\
    loading h' = false.
Proof.
  intros Hcause text. subst text.
  unfold cancelBooking, finally, try_catch, bind, setLoading, setError, booking_service, lift.
  cbn [remote].
  destruct (cancel_request_cases bookingId (remote h))
    as [(e' & -> & He) | [(e' & -> & He) | (b' & _ & Hf & Hb')]].
  - assert (e' = e) by (destruct Hcause as [H | [H | (H & _)]]; congruence). subst e'.
    unfold throw, showNotification, ret. cbn.
    eexists. split; [reflexivity |]. cbn. repeat split; reflexivity.
  - assert (e' = e).
    { destruct He as [He | (Hf & Hb & ->)], Hcause as [H | [H | (H & Hb' & ->)]];
        congruence. }
    subst e'. cbn [update_error]. unfold throw, showNotification, ret. cbn.
    eexists. split; [reflexivity |]. cbn. repeat split; reflexivity.
  - destruct Hcause as [H | [H | (_ & H & _)]]; congruence.
Qed.

Lemma cancelBooking_failure_witness :
  exists h',
    cancelBooking "booking-7" (mkHook false None [] Samples.world0) = (Ret Undefined, h') /\
    store (remote h') = store_seen Samples.world0 /\
    notifications h' = [("Failed to cancel booking", notify_error)] /\
    hook_error h' = Some "Failed to cancel booking" /\
    loading h' = false.
Proof.
  apply (cancelBooking_failure "booking-7" (mkHook false None [] Samples.world0)
           (PlainObj "PGRST116")).
  right. right. split; [reflexivity |]. split; [vm_compute; reflexivity | reflexivity].
Defined.

End CancelFacts.

(** * Further properties of the location services *)
Module LocationMore.
Import Location.
Import LocationReadings.

Section WithRuntime.
Context `{JsRuntime}.

(** ** The driver's last known location *)



(** A failed update changes no row.  When the location's timestamp is
    not a valid date the failure comes before any request: nothing is
    sent, and the error is the RangeError of the conversion. *)
Theorem updateDriverLocation_failure_keeps_table (driverId : string) (location : Location)
    (w : World) :
  toISOString (timestamp location) = None \/ is_Some (hd None (faults w)) ->
  exists e w',
    updateDriverLocation driverId location w = (Ret (mkUpdateResult (Some e)), w') /\
    driver_locations w' = driver_locations w /\
    (toISOString (timestamp location) = None ->
       e = ErrorObj "Invalid time value" /\
       faults w' = faults w /\
       log w' = log w ++ [ConsoleError "Error updating location:"]).
Proof.
  intros Hbad.
  unfold updateDriverLocation, try_catch, updateDriverLocation_try, date_toISOString, bind.
  destruct (toISOString (timestamp location)) as [iso|].
  - destruct Hbad as [Hnone | [f Hf]]; [discriminate |].
    unfold ret, upsert. rewrite Hf.
    destruct f as [e|e]; unfold updateDriverLocation_catch, bind, emit, ret, throw; cbn;
      eexists _, _; (split; [reflexivity |]); cbn; (split; [reflexivity | discriminate]).
  - unfold throw, updateDriverLocation_catch, bind, emit, ret. cbn.
    eexists _, _. split; [reflexivity |]. cbn. split; [reflexivity |].
    intros _. repeat split; reflexivity.
Qed.

(** ** The one-shot chain *)

(** Each retry doubles the timeout of the attempt before it and keeps
    the other options: attempt number k+1 is made with the caller's
    timeout times 2^k. *)
Theorem getPosition_doubles_timeout (answers : list Answer) (options : PositionOptions) :
  attempts (initial_position answers options) =
    take (S (leading_failures answers))
      ((fun k => mkOptions (enableHighAccuracy options) (maximumAge options)
                   ((fun t => t * 2 ^ k) <$> timeout options)) <$> [0; 1; 2; 3]).
Proof.
  assert (Hdoubled :
    (fun k => mkOptions (enableHighAccuracy options) (maximumAge options)
                ((fun t => t * 2 ^ k) <$> timeout options)) <$> [0; 1; 2; 3] =
    [options; double_timeout options; double_timeout (double_timeout options);
     double_timeout (double_timeout (double_timeout options))]).
  { destruct options as [accuracy age [t|]]; [| reflexivity].
    unfold double_timeout. cbn -[Z.mul Z.pow]. repeat (f_equal; try lia). }
  rewrite Hdoubled.
  destruct answers as [|[p1|e1] [|[p2|e2] [|[p3|e3] [|[p4|e4] rest]]]]; reflexivity.
Qed.

(** The one-shot chain calls back at most once: with the position that
    ends the leading failures (its latitude, longitude and timestamp as
    they are, its heading and speed unless null or falsy), when it
    comes within the first four attempts; a position that the script
    holds after four failures is never asked for. *)
Theorem initial_position_callback (answers : list Answer) (options : PositionOptions) :
  let unless_falsy (x : option number) : option number :=
    match x with
    | Some v => if falsy v then None else Some v
    | None => None
    end in
  callbacks (initial_position answers options) =
    match answers !! leading_failures answers with
    | Some (Fix position) =>
        if decide (leading_failures answers <= 3)%nat
        then [mkLocation (coords_latitude (coords position))
                (coords_longitude (coords position))
                (unless_falsy (coords_heading (coords position)))
                (unless_falsy (coords_speed (coords position)))
                (position_timestamp position)]
        else []
    | _ => []
    end.
Proof.
  destruct answers as [|[p1|e1] [|[p2|e2] [|[p3|e3] [|[p4|e4] rest]]]]; try reflexivity.
  cbn [leading_failures].
  destruct (_ !! _) as [[?|?]|]; reflexivity.
Qed.

(** ** The name of a geocoding result *)

Lemma first_part_no_comma (s : string) : ~ has_comma (first_part s).
Proof.
  unfold has_comma. induction s as [|c s IH]; cbn; [tauto |].
  destruct (Ascii.eqb c ",") eqn:Hc; cbn; [tauto |].
  apply Ascii.eqb_neq in Hc. intros [Heq | Hin]; [congruence | tauto].
Qed.

(** first_part is the text before the first comma: it holds no comma,
    it is the whole text when that has none, and it undoes the
    appending of a comma and anything after it. *)
Theorem first_part_is_first_field (a b : string) :
  ~ has_comma (first_part a) /\
  (~ has_comma a -> first_part a = a /\ first_part (a +:+ String "," b) = a).
Proof.
  split; [apply first_part_no_comma |].
  unfold has_comma. induction a as [|c a IH]; cbn.
  - intros _. split; reflexivity.
  - intros Hno. destruct (Ascii.eqb c ",") eqn:Hc.
    + apply Ascii.eqb_eq in Hc. tauto.
    + destruct IH as [IH1 IH2]; [tauto |].
      split; [f_equal; exact IH1 |].
      change (String c a +:+ String "," b) with (String c (a +:+ String "," b)).
      cbn [first_part]. rewrite Hc. f_equal. exact IH2.
Qed.

(** Whatever the endpoint answers, the name in a result of
    geocodeLocation holds no comma. *)
Theorem geocodeLocation_name_no_comma (locationName : string) (w : World) (r : Coords) :
  fst (geocodeLocation locationName w) = Ret (Some r) ->
  ~ has_comma (name r).
Proof.
  destruct (LocationFacts.geocodeLocation_run locationName w) as (w' & Hrun & _).
  rewrite Hrun. cbn [fst]. intros Hret.
  assert (Hhit : exists hit, coords_of hit = Some r).
  { injection Hret as Hret. unfold geocode_answer in Hret.
    destruct (json_of (endpoint w (scoped_url locationName))) as [data|]; [| discriminate].
    destruct (no_results data).
    - destruct (json_of (endpoint w (unscoped_url locationName)) ≫= first_hit) as [hit|];
        [| discriminate].
      exists hit. exact Hret.
    - destruct (first_hit data) as [hit|]; [| discriminate].
      exists hit. exact Hret. }
  destruct Hhit as [hit Hhit]. unfold coords_of in Hhit.
  destruct (text_of (member "lat" hit)) as [lat_text|],
           (text_of (member "lon" hit)) as [lon_text|],
           (member "display_name" hit) as [[| b | n | text | items | members]|];
    try discriminate Hhit.
  injection Hhit as <-. cbn [name]. apply first_part_no_comma.
Qed.

End WithRuntime.


Lemma updateDriverLocation_failure_keeps_table_witness :
  exists e w',
    @updateDriverLocation LocationSamples.runtime "driver-1" MoreSamples.stamped_nan
      MoreSamples.empty_table = (Ret (mkUpdateResult (Some e)), w') /\
    driver_locations w' = driver_locations MoreSamples.empty_table /\
    e = ErrorObj "Invalid time value" /\
    log w' = [ConsoleError "Error updating location:"].
Proof.
  destruct (@updateDriverLocation_failure_keeps_table LocationSamples.runtime "driver-1"
              MoreSamples.stamped_nan MoreSamples.empty_table)
    as (e & w' & Hrun & Htable & Hnone).
  - left. reflexivity.
  - destruct Hnone as (He & _ & Hlog); [reflexivity |].
    exists e, w'. split; [exact Hrun |]. split; [exact Htable |].
    split; [exact He | exact Hlog].
Defined.

Lemma first_part_is_first_field_witness :
  @first_part "Ahmedabad" = "Ahmedabad" /\
  @first_part ("Ahmedabad" +:+ String "," " Gujarat, India") = "Ahmedabad".
Proof.
  apply (first_part_is_first_field "Ahmedabad" " Gujarat, India").
  unfold has_comma. cbn. intuition discriminate.
Defined.

Lemma geocodeLocation_name_no_comma_witness :
  ~ has_comma (@name LocationSamples.runtime MoreSamples.ahmedabad_coords).
Proof.
  apply (@geocodeLocation_name_no_comma LocationSamples.runtime "Ahmedabad" MoreSamples.web0).
  vm_compute. reflexivity.
Defined.

End LocationMore.

(** * Properties of the search form *)
Module SearchFacts.
Import Location.
Import LocationReadings.
Import Control.
Import SearchForm.

Section WithRuntime.
Context `{JsRuntime}.

(** A lookup always returns; it changes nothing but the console and
    the list of fetches. *)
Lemma geocodeLocation_result (locationName : string) (w : World) :
  exists lg,
    geocodeLocation locationName w =
      (Ret (geocode_answer (endpoint w) locationName),
       mkWorld (driver_locations w) (faults w) (endpoint w) lg) /\
    fetched lg = fetched (log w) ++ geocode_fetches (endpoint w) locationName.
Proof.
  exact (LocationFacts.geocodeLocation_run locationName w).
Qed.

(** One run of updateLocations with both fields filled. *)
Lemma updateLocations_run (f : Form) :
  from (searchParams f) <> "" ->
  to (searchParams f) <> "" ->
  let ep := endpoint (web f) in
  exists f',
    updateLocations f = (Ret tt, f') /\
    isLoading f' = false /\
    fromLocation f' = kept (geocode_answer ep (from (searchParams f))) (fromLocation f) /\
    toLocation f' = kept (geocode_answer ep (to (searchParams f))) (toLocation f) /\
    searchParams f' = searchParams f /\
    searches f' = searches f /\
    fetched (log (web f')) =
      fetched (log (web f)) ++
      geocode_fetches ep (from (searchParams f)) ++ geocode_fetches ep (to (searchParams f)).
Proof.
  intros Hfrom Hto ep. subst ep.
  unfold updateLocations.
  assert (Hf : Bookings.truthy_string (from (searchParams f)) = true)
    by (apply negb_true_iff, String.eqb_neq; exact Hfrom).
  assert (Ht : Bookings.truthy_string (to (searchParams f)) = true)
    by (apply negb_true_iff, String.eqb_neq; exact Hto).
  rewrite Hf, Ht. cbn [negb orb].
  unfold bind at 1. unfold setIsLoading at 1.
  unfold finally, try_catch. unfold bind at 1. unfold console at 1, location_service at 1, lift, emit.
  cbn [web searchParams fromLocation toLocation isLoading searches].
  unfold bind at 1. unfold location_service at 1, lift. cbn [web].
  match goal with |- context [geocodeLocation ?n ?w] =>
    destruct (geocodeLocation_result n w) as (lg1 & -> & Hlg1)
  end.
  cbn [endpoint] in *.
  set (found1 := geocode_answer (endpoint (web f)) (from (searchParams f))) in *.
  assert (Hstep1 : forall (f1 : Form),
    exists f2,
      (match found1 with
       | Some found => console (ConsoleLog "Found from location:") ;; setFromLocation found
       | None => ret tt
       end) f1 = (Ret tt, f2) /\
      fromLocation f2 = kept found1 (fromLocation f1) /\
      toLocation f2 = toLocation f1 /\ searchParams f2 = searchParams f1 /\
      searches f2 = searches f1 /\ isLoading f2 = isLoading f1 /\
      endpoint (web f2) = endpoint (web f1) /\
      driver_locations (web f2) = driver_locations (web f1) /\
      faults (web f2) = faults (web f1) /\
      fetched (log (web f2)) = fetched (log (web f1))).
  { intros f1. destruct found1 as [c|].
    - unfold bind, console, location_service, lift, emit, setFromLocation. cbn.
      eexists. split; [reflexivity |]. cbn. repeat split; try reflexivity.
      unfold fetched. rewrite omap_app. cbn. apply app_nil_r.
    - unfold ret. eexists. split; [reflexivity |]. repeat split; reflexivity. }
  unfold bind at 1.
  match goal with |- context [(match found1 with Some _ => _ | None => _ end) ?f1] =>
    destruct (Hstep1 f1) as (f2 & -> & Hfrom2 & Hto2 & Hsp2 & Hs2 & Hl2 & Hep2 & Hd2 & Hfa2 & Hlog2)
  end.
  cbn [fromLocation toLocation searchParams searches isLoading web endpoint log] in *.
  unfold bind at 1. unfold location_service at 1, lift.
  match goal with |- context [geocodeLocation ?n ?w] =>
    destruct (geocodeLocation_result n w) as (lg2 & -> & Hlg2)
  end.
  rewrite Hep2 in *.
  set (found2 := geocode_answer (endpoint (web f)) (to (searchParams f))) in *.
  destruct found2 as [c|].
  - unfold bind, console, location_service, lift, emit, setToLocation, setIsLoading. cbn.
    eexists. split; [reflexivity |]. cbn.
    repeat split; try assumption; try reflexivity.
    unfold fetched in *. rewrite omap_app. cbn. rewrite app_nil_r.
    rewrite Hlg2, Hlog2, Hlg1. rewrite omap_app. cbn. rewrite app_nil_r, <- !app_assoc.
    reflexivity.
  - unfold ret, setIsLoading. cbn.
    eexists. split; [reflexivity |]. cbn.
    repeat split; try assumption; try reflexivity.
    unfold fetched in *.
    rewrite Hlg2, Hlog2, Hlg1. rewrite omap_app. cbn. rewrite app_nil_r, <- !app_assoc.
    reflexivity.
Qed.

(** updateLocations with both fields filled looks up [from], then
    [to], in two to four fetches; it ends with isLoading false and
    never throws.  A field whose lookup finds something gets the
    coordinates found; a field whose lookup finds nothing or fails
    keeps the coordinates it had. *)
Theorem updateLocations_outcome (f : Form) :
  from (searchParams f) <> "" ->
  to (searchParams f) <> "" ->
  let ep := endpoint (web f) in
  exists f',
    updateLocations f = (Ret tt, f') /\
    isLoading f' = false /\
    fromLocation f' = kept (geocode_answer ep (from (searchParams f))) (fromLocation f) /\
    toLocation f' = kept (geocode_answer ep (to (searchParams f))) (toLocation f) /\
    searchParams f' = searchParams f /\
    searches f' = searches f /\
    fetched (log (web f')) =
      fetched (log (web f)) ++
      geocode_fetches ep (from (searchParams f)) ++ geocode_fetches ep (to (searchParams f)) /\
    (2 <= length (fetched (log (web f'))) - length (fetched (log (web f))) <= 4)%nat.
Proof.
  intros Hfrom Hto ep.
  destruct (updateLocations_run f Hfrom Hto)
    as (f' & Hrun & Hload & Hf & Ht & Hsp & Hs & Hlog).
  exists f'. repeat (split; [assumption |]).
  fold ep in Hlog. rewrite Hlog, !length_app. unfold geocode_fetches.
  destruct (match json_of (ep (scoped_url (from (searchParams f)))) with
            | Some data => no_results data | None => false end),
           (match json_of (ep (scoped_url (to (searchParams f)))) with
            | Some data => no_results data | None => false end); cbn; lia.
Qed.

(** A lookup that finds nothing does not clear what an earlier lookup
    found.  When the user replaces the From text by a place the
    endpoint does not know, and submits, onSearch is called with the
    new text and the coordinates of the old place. *)
Theorem stale_location_is_submitted (f : Form) (text : string) (old_from old_to : Coords) :
  fromLocation f = Some old_from ->
  toLocation f = Some old_to ->
  text <> "" ->
  to (searchParams f) <> "" ->
  geocode_answer (endpoint (web f)) text = None ->
  let typed := snd (type_from text f) in
  let looked_up := snd (updateLocations typed) in
  let submitted := snd (handleSubmit looked_up) in
  exists to_coords,
    searches submitted =
      searches f ++
      [mkSearch (mkSearchParams text (to (searchParams f)) (date (searchParams f)))
         old_from to_coords].
Proof.
  intros Hfrom Hto Htext Hto_text Hnone typed looked_up submitted.
  subst submitted looked_up typed. unfold type_from. cbn [snd].
  match goal with |- context [updateLocations ?f1] =>
    destruct (updateLocations_run f1) as (f2 & -> & _ & Hf2 & Ht2 & Hsp2 & Hs2 & _)
  end; [exact Htext | exact Hto_text |].
  cbn [snd searchParams fromLocation toLocation web searches from to date] in *.
  rewrite Hnone, Hfrom in Hf2. rewrite Hto in Ht2. cbn [kept] in Hf2.
  unfold handleSubmit. rewrite Hf2.
  destruct (toLocation f2) as [to_coords|] eqn:Hto2.
  - exists to_coords. unfold bind, console, location_service, lift, emit, onSearch. cbn.
    rewrite Hs2, Hsp2. reflexivity.
  - destruct (geocode_answer _ _) in Ht2; discriminate Ht2.
Qed.

End WithRuntime.

Lemma updateLocations_outcome_witness :
  exists f',
    @updateLocations LocationSamples.runtime MoreSamples.form0 = (Ret tt, f') /\
    isLoading f' = false /\
    fromLocation f' = Some MoreSamples.ahmedabad_coords /\
    toLocation f' = Some MoreSamples.surat_coords /\
    fetched (log (web f')) =
      [@scoped_url LocationSamples.runtime "Ahmedabad";
       @scoped_url LocationSamples.runtime "Surat";
       @unscoped_url LocationSamples.runtime "Surat"].
Proof.
  destruct (@updateLocations_outcome LocationSamples.runtime MoreSamples.form0)
    as (f' & Hrun & Hload & Hfrom & Hto & _ & _ & Hlog & _).
  - discriminate.
  - discriminate.
  - exists f'. split; [exact Hrun |]. split; [exact Hload |].
    split; [exact Hfrom |]. split; [exact Hto | exact Hlog].
Defined.

Lemma stale_location_is_submitted_witness :
  let typed := snd (@type_from LocationSamples.runtime "Atlantis" MoreSamples.form0) in
  let looked_up := snd (updateLocations typed) in
  let submitted := snd (handleSubmit looked_up) in
  exists to_coords,
    searches submitted =
      [mkSearch (mkSearchParams "Atlantis" "Surat" "2025-01-01")
         MoreSamples.ahmedabad_coords to_coords].
Proof.
  apply (@stale_location_is_submitted LocationSamples.runtime MoreSamples.form0 "Atlantis"
           MoreSamples.ahmedabad_coords MoreSamples.surat_coords).
  - reflexivity.
  - reflexivity.
  - discriminate.
  - discriminate.
  - vm_compute. reflexivity.
Defined.

End SearchFacts.

(** * Properties of the storage adapters *)
Module StorageFacts.
Import ClientStorage.

(** None of the six adapter functions throws, whatever the two storage
    areas do; and reading never changes what is stored. *)
Theorem adapters_never_throw (key value : string) (b : Browser) :
  (exists r b', getItem key b = (Ret r, b') /\
                items (localStorage b') = items (localStorage b) /\
                items (sessionStorage b') = items (sessionStorage b)) /\
  (exists b', setItem key value b = (Ret tt, b')) /\
  (exists b', removeItem key b = (Ret tt, b')) /\
  (exists r b', session_getItem key b = (Ret r, b') /\
                items (localStorage b') = items (localStorage b) /\
                items (sessionStorage b') = items (sessionStorage b)) /\
  (exists b', session_setItem key value b = (Ret tt, b')) /\
  (exists b', session_removeItem key b = (Ret tt, b')).
Proof.
  unfold getItem, setItem, removeItem, session_getItem, session_setItem, session_removeItem,
    try_catch, bind, storage_getItem, storage_setItem, storage_removeItem, console_error, ret.
  destruct b as [[li lg ls lr] [si sg ss sr] out].
  destruct lg, ls, lr, sg, ss, sr; cbn;
    repeat match goal with
           | |- _ /\ _ => split
           | |- exists _, _ => eexists
           end; reflexivity.
Qed.

(** What is written can be read back when localStorage works, and also
    when localStorage throws on both accesses and sessionStorage works. *)
Theorem setItem_getItem_round_trip (key value : string) (b : Browser) :
  (set_throws (localStorage b) = false /\ get_throws (localStorage b) = false) \/
  (set_throws (localStorage b) = true /\ get_throws (localStorage b) = true /\
   set_throws (sessionStorage b) = false /\ get_throws (sessionStorage b) = false) ->
  fst (getItem key (snd (setItem key value b))) = Ret (Some value).
Proof.
  unfold getItem, setItem, try_catch, bind, storage_getItem, storage_setItem, console_error, ret.
  destruct b as [[li lg ls lr] [si sg ss sr] out].
  cbn [localStorage sessionStorage get_throws set_throws].
  intros [(-> & ->) | (-> & -> & -> & ->)]; cbn;
    rewrite lookup_insert_eq; reflexivity.
Qed.

(** The fallback is per access, not per key: when localStorage takes
    no more writes but still answers reads, setItem stores the value in
    sessionStorage, and getItem goes on answering from localStorage,
    with the old value or null. *)
Theorem setItem_into_full_storage_not_read_back (key value : string) (b : Browser) :
  set_throws (localStorage b) = true ->
  get_throws (localStorage b) = false ->
  set_throws (sessionStorage b) = false ->
  let written := snd (setItem key value b) in
  items (sessionStorage written) !! key = Some value /\
  items (localStorage written) = items (localStorage b) /\
  fst (getItem key written) = Ret (items (localStorage b) !! key).
Proof.
  unfold getItem, setItem, try_catch, bind, storage_getItem, storage_setItem, console_error, ret.
  destruct b as [[li lg ls lr] [si sg ss sr] out].
  cbn [localStorage sessionStorage get_throws set_throws]. intros -> -> ->. cbn.
  split; [apply lookup_insert_eq |]. split; reflexivity.
Qed.

(** removeItem only reaches sessionStorage when localStorage throws.
    When localStorage works, a copy of the key in sessionStorage
    survives the removal: getItem then answers null, and answers the
    surviving copy once localStorage stops answering reads. *)
Theorem removeItem_leaves_session_copy (key copy : string) (b : Browser) :
  remove_throws (localStorage b) = false ->
  get_throws (localStorage b) = false ->
  get_throws (sessionStorage b) = false ->
  items (sessionStorage b) !! key = Some copy ->
  let removed := snd (removeItem key b) in
  let later :=
    mkBrowser
      (mkArea (items (localStorage removed)) true (set_throws (localStorage removed))
              (remove_throws (localStorage removed)))
      (sessionStorage removed) (console removed) in
  fst (getItem key removed) = Ret None /\
  items (sessionStorage removed) !! key = Some copy /\
  fst (getItem key later) = Ret (Some copy).
Proof.
  unfold getItem, removeItem, try_catch, bind, storage_getItem, storage_removeItem,
    console_error, ret.
  destruct b as [[li lg ls lr] [si sg ss sr] out].
  cbn [localStorage sessionStorage get_throws remove_throws items].
  intros -> -> -> Hcopy. cbn.
  split; [rewrite lookup_delete_eq; reflexivity |]. split; [exact Hcopy |].
  rewrite Hcopy. reflexivity.
Qed.

(** The session-only adapter: what is written is read back and what is
    removed reads as null while sessionStorage works; when reading
    throws, getItem answers null and logs the error. *)
Theorem session_adapter_round_trip (key value : string) (b : Browser) :
  (set_throws (sessionStorage b) = false -> get_throws (sessionStorage b) = false ->
     fst (session_getItem key (snd (session_setItem key value b))) = Ret (Some value)) /\
  (remove_throws (sessionStorage b) = false -> get_throws (sessionStorage b) = false ->
     fst (session_getItem key (snd (session_removeItem key b))) = Ret None) /\
  (get_throws (sessionStorage b) = true ->
     session_getItem key b =
       (Ret None, mkBrowser (localStorage b) (sessionStorage b)
                    (console b ++ ["Error accessing sessionStorage:"]))).
Proof.
  unfold session_getItem, session_setItem, session_removeItem, try_catch, bind,
    storage_getItem, storage_setItem, storage_removeItem, console_error, ret.
  destruct b as [[li lg ls lr] [si sg ss sr] out].
  cbn [localStorage sessionStorage get_throws set_throws remove_throws items].
  repeat split.
  - intros -> ->. cbn. rewrite lookup_insert_eq. reflexivity.
  - intros -> ->. cbn. rewrite lookup_delete_eq. reflexivity.
  - intros ->. cbn. reflexivity.
Qed.

Lemma setItem_getItem_round_trip_witness :
  fst (getItem "supabase.auth.token"
         (snd (setItem "supabase.auth.token" "fresh" MoreSamples.private_browser))) =
    Ret (Some "fresh").
Proof.
  apply (setItem_getItem_round_trip "supabase.auth.token" "fresh" MoreSamples.private_browser).
  right. repeat split; reflexivity.
Defined.

Lemma setItem_into_full_storage_not_read_back_witness :
  let written := snd (setItem "supabase.auth.token" "fresh" MoreSamples.full_browser) in
  items (sessionStorage written) !! "supabase.auth.token" = Some "fresh" /\
  items (localStorage written) = items (localStorage MoreSamples.full_browser) /\
  fst (getItem "supabase.auth.token" written) =
    Ret (items (localStorage MoreSamples.full_browser) !! "supabase.auth.token").
Proof.
  apply (setItem_into_full_storage_not_read_back "supabase.auth.token" "fresh"
           MoreSamples.full_browser); reflexivity.
Defined.

Lemma removeItem_leaves_session_copy_witness :
  let removed := snd (removeItem "supabase.auth.token" MoreSamples.working_browser) in
  let later :=
    mkBrowser
      (mkArea (items (localStorage removed)) true (set_throws (localStorage removed))
              (remove_throws (localStorage removed)))
      (sessionStorage removed) (console removed) in
  fst (getItem "supabase.auth.token" removed) = Ret None /\
  items (sessionStorage removed) !! "supabase.auth.token" = Some "stale" /\
  fst (getItem "supabase.auth.token" later) = Ret (Some "stale").
Proof.
  apply (removeItem_leaves_session_copy "supabase.auth.token" "stale"
           MoreSamples.working_browser).
  - reflexivity.
  - reflexivity.
  - reflexivity.
  - vm_compute. reflexivity.
Defined.

Lemma session_adapter_round_trip_witness :
  fst (session_getItem "supabase.auth.token"
         (snd (session_setItem "supabase.auth.token" "fresh" MoreSamples.working_browser))) =
    Ret (Some "fresh") /\
  fst (session_getItem "supabase.auth.token"
         (snd (session_removeItem "supabase.auth.token" MoreSamples.working_browser))) =
    Ret None.
Proof.
  destruct (session_adapter_round_trip "supabase.auth.token" "fresh"
              MoreSamples.working_browser) as (Hset & Hremove & _).
  split; [apply Hset | apply Hremove]; reflexivity.
Defined.

End StorageFacts.
